(** * The image-conversion endpoint of [src/index.ts]

    A shallow embedding of the upload handler: the format registry
    [SUPPORTED_FORMATS], the file-type guard [isValidImageType], the
    encoder dispatch [convertImage] and the [POST /upload] handler.

    JavaScript strings are modelled as [string] (sequences of bytes); the
    only case conversion the program performs is applied to the target
    format, whose accepted values are ASCII.  JavaScript numbers are
    IEEE-754 doubles, modelled by [spec_float].  The image library
    ([sharp]) and the built-ins [Number] and base64 encoding are not part
    of the repository: they are the fields of two interfaces the
    development is parameterised over.  Console logging has no effect on
    the responses and is left out. *)

From Stdlib Require Import String Ascii List Bool Arith ZArith Lia.
From Stdlib Require Import SpecFloat.
Import ListNotations.
Local Open Scope list_scope.
Local Open Scope string_scope.

Set Implicit Arguments.

(** ** JavaScript values and built-ins used by the program *)

(** A computation either returns a value or throws an [Error] carrying a
    message. *)
Inductive JsResult (A : Type) : Type :=
| Return (value : A)
| Throw (message : string).

Arguments Return {A} value.
Arguments Throw {A} message.

Definition number : Type := spec_float.

(** [Number(z)] for an integer literal [z] of the program text. *)
Definition literal (z : Z) : number := binary_normalize 53 1024 z 0 false.

Definition eighty : number := Eval vm_compute in literal 80.

(** Truthiness of a number: [NaN], [+0] and [-0] are falsy. *)
Definition truthy (x : number) : bool :=
  match x with
  | S754_nan => false
  | S754_zero _ => false
  | S754_infinity _ => true
  | S754_finite _ _ _ => true
  end.

(** [x || d] on numbers. *)
Definition orElse (x d : number) : number := if truthy x then x else d.

(** [String.prototype.startsWith]. *)
Definition startsWith (s searchString : string) : bool :=
  String.prefix searchString s.

(** [Array.prototype.includes] on an array of strings. *)
Fixpoint includes (arr : list string) (x : string) : bool :=
  match arr with
  | [] => false
  | y :: rest => if String.eqb y x then true else includes rest x
  end.

Definition lowerChar (c : ascii) : ascii :=
  let n := nat_of_ascii c in
  if Nat.leb 65 n && Nat.leb n 90 then ascii_of_nat (n + 32) else c.

(** [String.prototype.toLowerCase]. *)
Fixpoint toLowerCase (s : string) : string :=
  match s with
  | EmptyString => EmptyString
  | String c rest => String (lowerChar c) (toLowerCase rest)
  end.

(** [String.prototype.split] with a one-character separator: the pieces
    between the occurrences of the separator, never an empty array. *)
Fixpoint split (s : string) (sep : ascii) : list string :=
  match s with
  | EmptyString => [EmptyString]
  | String c rest =>
      if Ascii.eqb c sep then EmptyString :: split rest sep
      else match split rest sep with
           | piece :: pieces => String c piece :: pieces
           | [] => [String c EmptyString]
           end
  end.

(** An array element inside a template literal: an index out of range
    reads [undefined], which prints as such. *)
Definition interpolate (element : option string) : string :=
  match element with
  | Some s => s
  | None => "undefined"
  end.

(** ** The format registry *)

Definition SUPPORTED_FORMATS : list (string * string) :=
  [ ("webp", "image/webp");
    ("avif", "image/avif");
    ("jpg", "image/jpeg");
    ("jpeg", "image/jpeg");
    ("png", "image/png") ].

Definition Object_keys (o : list (string * string)) : list string :=
  map fst o.

Definition Object_values (o : list (string * string)) : list string :=
  map snd o.

(** Property access [o[key]] on the object's own properties; [None] is
    [undefined].  The members an object literal inherits from
    [Object.prototype] are not modelled: the program reads
    [SUPPORTED_FORMATS[targetFormat]] only after it has checked that
    [targetFormat] is one of the keys. *)
Fixpoint lookup (o : list (string * string)) (key : string) : option string :=
  match o with
  | [] => None
  | (k, v) :: rest => if String.eqb k key then Some v else lookup rest key
  end.

(** ** Uploaded files and the file-type guard *)

Definition Buffer : Type := list Byte.byte.

Record File : Type := mkFile {
  file_name : string;
  file_type : string;
  file_bytes : Buffer
}.

Definition isValidImageType (file : File) : bool :=
  startsWith (file_type file) "image/" &&
  includes (Object_values SUPPORTED_FORMATS) (file_type file).

(** ** Output name *)

(** The [name] field of a result record:
    [`${file.name.split(".")[0]}.${targetFormat.toLowerCase()}`]. *)
Definition outputName (fileName targetFormat : string) : string :=
  interpolate (nth_error (split fileName "."%char) 0) ++ "." ++ toLowerCase targetFormat.

(** The wording of the specification: everything from the first "." of
    the original name onward is stripped. *)
Fixpoint beforeFirstDot (s : string) : string :=
  match s with
  | EmptyString => EmptyString
  | String c rest =>
      if Ascii.eqb c "."%char then EmptyString else String c (beforeFirstDot rest)
  end.

(** A name without any ".". *)
Definition dotFree (s : string) : Prop :=
  ~ In "."%char (list_ascii_of_string s).

(** ** The external collaborators *)

(** What [sharp(...).metadata()] reports about a buffer. *)
Record Metadata : Type := mkMetadata {
  format : option string;
  width : option N;
  height : option N
}.

(** The encoder selected on a [sharp] instance, with the options the
    program passes to it. *)
Inductive Encoder : Type :=
| webp (quality : number) (lossless : option bool)
| avif (quality : number) (lossless : option bool)
| jpeg (quality : number) (mozjpeg : bool)
| png (quality : number) (compressionLevel : nat).

(** The image library.  [sharp_new] is the constructor [sharp(buffer)],
    which may refuse its input; [sharp_metadata] resolves to a value the
    program tests for truthiness ([None] is a falsy value) or rejects;
    [sharp_toBuffer] runs an encoder over the input. *)
Class Sharp : Type := {
  sharp_new : Buffer -> JsResult unit;
  sharp_metadata : Buffer -> JsResult (option Metadata);
  sharp_toBuffer : Buffer -> Encoder -> JsResult Buffer
}.

(** The built-ins: [Number] applied to a string, and
    [Buffer.prototype.toString("base64")]. *)
Class Builtins : Type := {
  StringToNumber : string -> number;
  base64 : Buffer -> string
}.

(** ** Asynchronous code with a log of the library calls it makes *)

Inductive SharpCall : Type :=
| MetadataCall (input : Buffer)
| EncodeCall (input : Buffer) (encoder : Encoder).

Definition encoderQuality (encoder : Encoder) : number :=
  match encoder with
  | webp q _ => q
  | avif q _ => q
  | jpeg q _ => q
  | png q _ => q
  end.

(** Every encoder a call starts is given the quality [q]. *)
Definition usesQuality (q : number) (call : SharpCall) : Prop :=
  match call with
  | MetadataCall _ => True
  | EncodeCall _ encoder => encoderQuality encoder = q
  end.


Definition Async (A : Type) : Type := (JsResult A * list SharpCall)%type.

Definition ret {A : Type} (a : A) : Async A := (Return a, []).

Definition throw {A : Type} (message : string) : Async A := (Throw message, []).

Definition bind {A B : Type} (m : Async A) (k : A -> Async B) : Async B :=
  match m with
  | (Return a, calls) => let (r, calls') := k a in (r, (calls ++ calls')%list)
  | (Throw message, calls) => (Throw message, calls)
  end.

(** [try { m } catch (err) { handler(err.message) }]. *)
Definition tryCatch {A : Type} (m : Async A) (handler : string -> Async A)
  : Async A :=
  match m with
  | (Return a, calls) => (Return a, calls)
  | (Throw message, calls) =>
      let (r, calls') := handler message in (r, (calls ++ calls')%list)
  end.

Notation "x <- m ;; k" := (bind m (fun x => k))
  (at level 61, m at next level, right associativity).

Definition outcome {A : Type} (m : Async A) : JsResult A := fst m.
Definition callsOf {A : Type} (m : Async A) : list SharpCall := snd m.

(** ** The conversion function *)

Record Options : Type := mkOptions {
  opt_quality : option number;
  opt_lossless : option bool
}.

(** The arms of the [switch (format.toLowerCase())] of [convertImage]. *)
Inductive FormatCase : Type :=
| CaseWebp | CaseAvif | CaseJpeg | CasePng | CaseDefault.

Definition formatCase (format : string) : FormatCase :=
  let f := toLowerCase format in
  if String.eqb f "webp" then CaseWebp
  else if String.eqb f "avif" then CaseAvif
  else if String.eqb f "jpg" then CaseJpeg
  else if String.eqb f "jpeg" then CaseJpeg
  else if String.eqb f "png" then CasePng
  else CaseDefault.

(** [options.quality || 80]. *)
Definition encodeQuality (options : Options) : number :=
  match opt_quality options with
  | Some q => orElse q eighty
  | None => eighty
  end.

Section Program.

Context {sharp : Sharp} {builtins : Builtins}.

Definition instance (buffer : Buffer) : Async unit :=
  (sharp_new buffer, []).

Definition metadata (buffer : Buffer) : Async (option Metadata) :=
  (sharp_metadata buffer, [MetadataCall buffer]).

(** [sharp(buffer).metadata()]. *)
Definition inspect (buffer : Buffer) : Async (option Metadata) :=
  sharpInstance <- instance buffer ;; metadata buffer.

Definition toBuffer (buffer : Buffer) (encoder : Encoder) : Async Buffer :=
  (sharp_toBuffer buffer encoder, [EncodeCall buffer encoder]).

Definition convertImage (buffer : Buffer) (format : string) (options : Options)
  : Async Buffer :=
  sharpInstance <- instance buffer ;;
  tryCatch
    (info <- metadata buffer ;;
     match info with
     | None => throw "Could not read image metadata"
     | Some _ =>
         let quality := encodeQuality options in
         match formatCase format with
         | CaseWebp => toBuffer buffer (webp quality (opt_lossless options))
         | CaseAvif => toBuffer buffer (avif quality (opt_lossless options))
         | CaseJpeg => toBuffer buffer (jpeg quality true)
         | CasePng => toBuffer buffer (png quality 9)
         | CaseDefault => throw ("Unsupported format: " ++ format)
         end
     end)
    (fun message =>
       throw ("Failed to convert to " ++ format ++ ": " ++ message)).

(** ** The result records *)

Record ImageSummary : Type := mkImageSummary {
  img_format : option string;
  img_width : option N;
  img_height : option N;
  img_size : nat
}.

Record ConvertedFile : Type := mkConvertedFile {
  name : string;
  buffer : string;
  originalName : string;
  size : nat;
  type : option string;
  original : ImageSummary;
  converted : ImageSummary
}.

Definition summary (info : Metadata) (bytes : Buffer) : ImageSummary :=
  {| img_format := format info;
     img_width := width info;
     img_height := height info;
     img_size := List.length bytes |}.

(** ** The per-file pipeline: the callback of [files.map] *)

Definition processFile (targetFormat : string) (quality : number)
  (lossless : bool) (file : File) : Async ConvertedFile :=
  if negb (isValidImageType file) then
    throw ("Invalid file type: " ++ file_name file)
  else
    tryCatch
      (let buffer := file_bytes file in
       originalInfo <- inspect buffer ;;
       match originalInfo with
       | None => throw "Could not read original image metadata"
       | Some originalInfo =>
           convertedBuffer <-
             convertImage buffer targetFormat
               {| opt_quality := Some quality; opt_lossless := Some lossless |} ;;
           convertedInfo <- inspect convertedBuffer ;;
           match convertedInfo with
           | None => throw "Could not read converted image metadata"
           | Some convertedInfo =>
               ret {| name := outputName (file_name file) targetFormat;
                      buffer := base64 convertedBuffer;
                      originalName := file_name file;
                      size := List.length convertedBuffer;
                      type := lookup SUPPORTED_FORMATS targetFormat;
                      original := summary originalInfo buffer;
                      converted := summary convertedInfo convertedBuffer |}
           end
       end)
      (fun message =>
         throw ("Failed to convert " ++ file_name file ++ ": " ++ message)).

(** ** [Promise.all] *)

Fixpoint rejections {A : Type} (settled : list (JsResult A)) : list string :=
  match settled with
  | [] => []
  | Return _ :: rest => rejections rest
  | Throw message :: rest => message :: rejections rest
  end.

Fixpoint fulfilments {A : Type} (settled : list (JsResult A)) : list A :=
  match settled with
  | [] => []
  | Return a :: rest => a :: fulfilments rest
  | Throw _ :: rest => fulfilments rest
  end.

(** [await Promise.all(promises)]: the values in the order of the
    promises when all are fulfilled, and otherwise the reason of the
    promise that rejected first.  Which one that is depends on how the
    tasks interleave; [first] chooses among the rejections, so that
    every interleaving is covered by some choice. *)
Definition Promise_all {A : Type} (first : nat) (settled : list (JsResult A))
  : JsResult (list A) :=
  match rejections settled with
  | [] => Return (fulfilments settled)
  | message :: others => Throw (nth first (message :: others) message)
  end.

(** ** The [POST /upload] handler *)

(** The form fields the handler reads.  The entries of [files] are
    [File]s, as the handler's cast has them; a field that is absent reads
    [null], here [None].  A form whose [files] field also holds plain
    text is a [RawFormData], handled by [uploadEntries] below. *)
Record FormData : Type := mkFormData {
  fd_files : list File;
  fd_targetFormat : option string;
  fd_quality : option string;
  fd_lossless : option string
}.

Inductive Body : Type :=
| ErrorBody (error : string) (details : option string)
| SuccessBody (message : string) (files : list ConvertedFile).

Record Response : Type := mkResponse {
  status : nat;
  body : Body
}.

(** What one run of the handler does: the response it sends, the
    outcome of the per-file task of every file it started, and the
    library calls those tasks make. *)
Record Run : Type := mkRun {
  response : Response;
  tasks : list (JsResult ConvertedFile);
  sharpCalls : list SharpCall
}.

(** [Number(formData.get("quality"))]: an absent field reads [null],
    which converts to [+0]. *)
Definition Number (field : option string) : number :=
  match field with
  | Some text => StringToNumber text
  | None => S754_zero false
  end.

(** [formData.get("lossless") === "true"]. *)
Definition isTrue (field : option string) : bool :=
  match field with
  | Some text => String.eqb text "true"
  | None => false
  end.

(** The quality the handler hands to every per-file task. *)
Definition requestQuality (formData : FormData) : number :=
  orElse (Number (fd_quality formData)) eighty.

Definition badRequest (reason : string) : Run :=
  {| response := {| status := 400; body := ErrorBody reason None |};
     tasks := [];
     sharpCalls := [] |}.

(** The handler.  [request] is the result of [await c.req.formData()];
    [first] resolves the race inside [Promise.all]. *)
Definition upload (first : nat) (request : JsResult FormData) : Run :=
  match request with
  | Throw message =>
      {| response :=
           {| status := 500;
              body := ErrorBody "Error processing files" (Some message) |};
         tasks := [];
         sharpCalls := [] |}
  | Return formData =>
      let files := fd_files formData in
      let quality := requestQuality formData in
      let lossless := isTrue (fd_lossless formData) in
      if Nat.eqb (List.length files) 0 then badRequest "No files provided"
      else
        match fd_targetFormat formData with
        | None => badRequest "Unsupported format"
        | Some targetFormat =>
            if negb (includes (Object_keys SUPPORTED_FORMATS) targetFormat)
            then badRequest "Unsupported format"
            else
              let started := map (processFile targetFormat quality lossless) files in
              let settled := map outcome started in
              {| response :=
                   match Promise_all first settled with
                   | Return convertedFiles =>
                       {| status := 200;
                          body := SuccessBody "Files converted successfully"
                                    convertedFiles |}
                   | Throw message =>
                       {| status := 500;
                          body := ErrorBody "Error processing files"
                                    (Some message) |}
                   end;
                 tasks := settled;
                 sharpCalls := concat (map callsOf started) |}
        end
  end.

(** The run of a request that passed both validation steps. *)
Definition batch (first : nat) (targetFormat : string) (formData : FormData)
  : Run :=
  let started :=
    map (processFile targetFormat (requestQuality formData)
           (isTrue (fd_lossless formData))) (fd_files formData) in
  {| response :=
       match Promise_all first (map outcome started) with
       | Return convertedFiles =>
           {| status := 200;
              body := SuccessBody "Files converted successfully" convertedFiles |}
       | Throw message =>
           {| status := 500;
              body := ErrorBody "Error processing files" (Some message) |}
       end;
     tasks := map outcome started;
     sharpCalls := concat (map callsOf started) |}.

End Program.

(** ** A concrete platform to run the program on *)

Module Demo.

(** Decimal digit strings, as [Number] reads them; any other text is
    not a number here. *)
Fixpoint digits (acc : Z) (s : string) : option Z :=
  match s with
  | EmptyString => Some acc
  | String c rest =>
      let n := nat_of_ascii c in
      if Nat.leb 48 n && Nat.leb n 57
      then digits (10 * acc + Z.of_nat (n - 48)) rest
      else None
  end.

Definition decimal (s : string) : number :=
  match digits 0 s with
  | Some z => literal z
  | None => S754_nan
  end.

Definition alphabet : string :=
  "ABCDEFGHIJKLMNOPQRSTUVWXYZabcdefghijklmnopqrstuvwxyz0123456789+/".

Definition sextet (n : N) : string :=
  match String.get (N.to_nat (N.land n 63)) alphabet with
  | Some c => String c EmptyString
  | None => EmptyString
  end.

Definition octet (b : Byte.byte) : N := Byte.to_N b.

Fixpoint encode64 (bytes : Buffer) : string :=
  match bytes with
  | [] => EmptyString
  | [a] =>
      let n := N.shiftl (octet a) 16 in
      sextet (N.shiftr n 18) ++ sextet (N.shiftr n 12) ++ "=="
  | [a; b] =>
      let n := N.lor (N.shiftl (octet a) 16) (N.shiftl (octet b) 8) in
      sextet (N.shiftr n 18) ++ sextet (N.shiftr n 12) ++
      sextet (N.shiftr n 6) ++ "="
  | a :: b :: c :: rest =>
      let n := N.lor (N.lor (N.shiftl (octet a) 16) (N.shiftl (octet b) 8))
                     (octet c) in
      sextet (N.shiftr n 18) ++ sextet (N.shiftr n 12) ++
      sextet (N.shiftr n 6) ++ sextet n ++ encode64 rest
  end.

Definition builtins : Builtins :=
  {| StringToNumber := decimal; base64 := encode64 |}.

(** A stand-in for the image library: an empty buffer is refused, a
    buffer starting with a zero byte is not an image, every other buffer
    is a 2x3 picture, and encoding prefixes the input
    with one byte naming the encoder. *)
Definition tag (encoder : Encoder) : Byte.byte :=
  match encoder with
  | webp _ _ => Byte.x01
  | avif _ _ => Byte.x02
  | jpeg _ _ => Byte.x03
  | png _ _ => Byte.x04
  end.

Definition kind (bytes : Buffer) : string :=
  match bytes with
  | Byte.x01 :: _ => "webp"
  | Byte.x02 :: _ => "avif"
  | Byte.x03 :: _ => "jpeg"
  | _ => "png"
  end.

Definition sharp : Sharp :=
  {| sharp_new := fun bytes =>
       match bytes with
       | [] => Throw "Input Buffer is empty"
       | _ => Return tt
       end;
     sharp_metadata := fun bytes =>
       match bytes with
       | Byte.x00 :: _ => Throw "Input buffer contains unsupported image format"
       | _ => Return (Some {| format := Some (kind bytes);
                              width := Some 2%N; height := Some 3%N |})
       end;
     sharp_toBuffer := fun bytes encoder => Return (tag encoder :: bytes) |}.

Definition photo : File :=
  mkFile "photo.with.dots.png" "image/png" [Byte.x04; Byte.x2a].

Definition notes : File :=
  mkFile "notes.txt" "text/plain" [Byte.x68; Byte.x69].

Definition broken : File :=
  mkFile "broken.jpg" "image/jpeg" [Byte.x00; Byte.x01].

Definition empty : File :=
  mkFile "empty.png" "image/png" [].

Definition readme : File :=
  mkFile "README" "image/png" [Byte.x04; Byte.x01].

Definition hidden : File :=
  mkFile ".hidden.png" "image/webp" [Byte.x01; Byte.x07].

Definition form (files : list File) (targetFormat : string) : FormData :=
  {| fd_files := files;
     fd_targetFormat := Some targetFormat;
     fd_quality := None;
     fd_lossless := None |}.

Definition run (first : nat) (formData : FormData) : Run :=
  @upload sharp builtins first (Return formData).

End Demo.

(** ** Requests whose [files] field holds text *)

(** What [formData.getAll("files")] returns before the handler's cast:
    a file part, or the text of a plain field of that name. *)
Inductive FormDataEntryValue : Type :=
| FileEntry (file : File)
| TextEntry (text : string).

Record RawFormData : Type := mkRawFormData {
  raw_files : list FormDataEntryValue;
  raw_targetFormat : option string;
  raw_quality : option string;
  raw_lossless : option string
}.

(** A form all of whose [files] entries are file parts. *)
Definition typed (formData : FormData) : RawFormData :=
  {| raw_files := map FileEntry (fd_files formData);
     raw_targetFormat := fd_targetFormat formData;
     raw_quality := fd_quality formData;
     raw_lossless := fd_lossless formData |}.

Section Entries.

Context {sharp : Sharp} {builtins : Builtins}.

(** The message of the [TypeError] the engine raises when a property of
    [undefined] is read. *)
Variable typeError : string.

(** The callback of [files.map] on an entry.  A text has no [type], so
    on it [file.type.startsWith] inside [isValidImageType] raises the
    [TypeError], before anything else is done. *)
Definition processEntry (targetFormat : string) (quality : number)
  (lossless : bool) (entry : FormDataEntryValue) : Async ConvertedFile :=
  match entry with
  | FileEntry file => processFile targetFormat quality lossless file
  | TextEntry _ => throw typeError
  end.

(** The handler on the entries as they arrive. *)
Definition uploadEntries (first : nat) (request : JsResult RawFormData) : Run :=
  match request with
  | Throw message =>
      {| response :=
           {| status := 500;
              body := ErrorBody "Error processing files" (Some message) |};
         tasks := [];
         sharpCalls := [] |}
  | Return formData =>
      let files := raw_files formData in
      let quality := orElse (Number (raw_quality formData)) eighty in
      let lossless := isTrue (raw_lossless formData) in
      if Nat.eqb (List.length files) 0 then badRequest "No files provided"
      else
        match raw_targetFormat formData with
        | None => badRequest "Unsupported format"
        | Some targetFormat =>
            if negb (includes (Object_keys SUPPORTED_FORMATS) targetFormat)
            then badRequest "Unsupported format"
            else
              let started := map (processEntry targetFormat quality lossless) files in
              let settled := map outcome started in
              {| response :=
                   match Promise_all first settled with
                   | Return convertedFiles =>
                       {| status := 200;
                          body := SuccessBody "Files converted successfully"
                                    convertedFiles |}
                   | Throw message =>
                       {| status := 500;
                          body := ErrorBody "Error processing files"
                                    (Some message) |}
                   end;
                 tasks := settled;
                 sharpCalls := concat (map callsOf started) |}
        end
  end.

End Entries.

(** * Properties *)

Unset Implicit Arguments.

(** ** Strings *)

Lemma split_first (s : string) :
  nth_error (split s "."%char) 0 = Some (beforeFirstDot s).
Proof.
  induction s as [|c rest IH]; simpl.
  - reflexivity.
  - destruct (Ascii.eqb c ".") eqn:Hc.
    + reflexivity.
    + destruct (split rest ".") as [|piece pieces].
      * discriminate IH.
      * simpl in IH. injection IH as ->. reflexivity.
Qed.

Lemma outputName_beforeFirstDot (fileName targetFormat : string) :
  outputName fileName targetFormat
  = beforeFirstDot fileName ++ "." ++ toLowerCase targetFormat.
Proof.
  unfold outputName. rewrite split_first. reflexivity.
Qed.

(** [beforeFirstDot] is the part of the name in front of its first ".":
    it has no "." itself, and the name is it alone or it followed by a
    "." and a remainder. *)
Lemma beforeFirstDot_prefix (s : string) :
  dotFree (beforeFirstDot s) /\
  (s = beforeFirstDot s \/ exists rest, s = beforeFirstDot s ++ "." ++ rest).
Proof.
  unfold dotFree.
  induction s as [|c rest [IHfree IHshape]]; simpl.
  - split; [tauto | now left].
  - destruct (Ascii.eqb_spec c ".") as [-> | Hc]; simpl.
    + split; [tauto | right; now exists rest].
    + split.
      * intros [Heq | Hin]; [now apply Hc | now apply IHfree].
      * destruct IHshape as [Hsame | [tail Htail]].
        -- left. now rewrite <- Hsame.
        -- right. exists tail. now rewrite Htail at 1.
Qed.

Lemma beforeFirstDot_dotFree (s : string) :
  dotFree s -> beforeFirstDot s = s.
Proof.
  unfold dotFree.
  induction s as [|c rest IH]; simpl; intros Hfree.
  - reflexivity.
  - destruct (Ascii.eqb_spec c ".") as [-> | Hc].
    + exfalso. apply Hfree. now left.
    + f_equal. apply IH. intros Hin. apply Hfree. now right.
Qed.

Lemma toLowerCase_key (key : string) :
  In key (Object_keys SUPPORTED_FORMATS) -> toLowerCase key = key.
Proof.
  simpl. intros H.
  repeat (destruct H as [<- | H]; [reflexivity|]).
  contradiction.
Qed.

Lemma includes_In (arr : list string) (x : string) :
  includes arr x = true <-> In x arr.
Proof.
  induction arr as [|y rest IH]; simpl.
  - split; [discriminate | tauto].
  - destruct (String.eqb_spec y x) as [-> | Hneq].
    + split; auto.
    + rewrite IH. split; [now right | intros [H | H]; [contradiction | exact H]].
Qed.

Lemma lookup_key (key : string) :
  In key (Object_keys SUPPORTED_FORMATS) ->
  exists mime, lookup SUPPORTED_FORMATS key = Some mime /\
               In mime (Object_values SUPPORTED_FORMATS).
Proof.
  simpl. intros H.
  repeat (destruct H as [<- | H]; [eexists; split; [reflexivity | simpl; tauto]|]).
  contradiction.
Qed.

Lemma startsWith_append (s searchString : string) :
  startsWith s searchString = true <-> exists rest, s = searchString ++ rest.
Proof.
  unfold startsWith. revert s.
  induction searchString as [|c p IH]; intros s; simpl.
  - destruct s; split; eauto.
  - destruct s as [|d s']; simpl.
    + split; [discriminate | intros [rest H]; discriminate H].
    + destruct (ascii_dec c d) as [-> | Hneq].
      * rewrite IH. split; intros [rest H]; exists rest.
        -- now rewrite H.
        -- now injection H.
      * split; [discriminate | intros [rest H]; injection H; intros; congruence].
Qed.

(** C3.  The file-type guard accepts a file exactly when its declared
    type starts with "image/" and is one of the MIME types among the
    values of the format registry, that is image/webp, image/avif,
    image/jpeg or image/png; image/gif and text/plain are rejected. *)
Theorem isValidImageType_iff (file : File) :
  (isValidImageType file = true <->
     (exists rest, file_type file = "image/" ++ rest) /\
     In (file_type file) (Object_values SUPPORTED_FORMATS)) /\
  (isValidImageType file = true <->
     file_type file = "image/webp" \/ file_type file = "image/avif" \/
     file_type file = "image/jpeg" \/ file_type file = "image/png") /\
  (file_type file = "image/gif" -> isValidImageType file = false) /\
  (file_type file = "text/plain" -> isValidImageType file = false).
Proof.
  assert (Hiff : isValidImageType file = true <->
     (exists rest, file_type file = "image/" ++ rest) /\
     In (file_type file) (Object_values SUPPORTED_FORMATS)).
  { unfold isValidImageType.
    rewrite andb_true_iff, startsWith_append, includes_In. tauto. }
  split; [exact Hiff|]. split.
  - rewrite Hiff. simpl. split.
    + intros [_ H].
      destruct H as [H | [H | [H | [H | [H | []]]]]]; rewrite <- H; tauto.
    + intros H. split.
      * destruct H as [H | [H | [H | H]]]; rewrite H; eexists; reflexivity.
      * destruct H as [H | [H | [H | H]]]; rewrite H; tauto.
  - unfold isValidImageType. split; intros ->; reflexivity.
Qed.

Lemma isValidImageType_iff_witness :
  isValidImageType (mkFile "clip.gif" "image/gif" []) = false /\
  isValidImageType (mkFile "notes.txt" "text/plain" []) = false.
Proof.
  split.
  - destruct (isValidImageType_iff (mkFile "clip.gif" "image/gif" []))
      as (_ & _ & Hgif & _).
    apply Hgif. reflexivity.
  - destruct (isValidImageType_iff (mkFile "notes.txt" "text/plain" []))
      as (_ & _ & _ & Htext).
    apply Htext. reflexivity.
Defined.

(** ** [Promise.all] *)

Lemma rejections_In {A : Type} (settled : list (JsResult A)) (message : string) :
  In message (rejections settled) <-> In (Throw message) settled.
Proof.
  induction settled as [|[a | m] rest IH]; simpl.
  - tauto.
  - rewrite IH. split; [now right | intros [H | H]; [discriminate H | exact H]].
  - rewrite IH. split; intros [H | H]; auto.
    + left. now rewrite H.
    + left. now injection H.
Qed.

Lemma rejections_none {A : Type} (settled : list (JsResult A)) :
  rejections settled = [] -> settled = map Return (fulfilments settled).
Proof.
  induction settled as [|[a | m] rest IH]; simpl; intros H.
  - reflexivity.
  - f_equal. now apply IH.
  - discriminate H.
Qed.

Lemma Promise_all_fulfilled {A : Type} (first : nat)
  (settled : list (JsResult A)) (values : list A) :
  Promise_all first settled = Return values -> settled = map Return values.
Proof.
  unfold Promise_all.
  destruct (rejections settled) as [|m others] eqn:Hrej; intros H.
  - injection H as <-. now apply rejections_none.
  - discriminate H.
Qed.

Lemma Promise_all_rejected {A : Type} (first : nat)
  (settled : list (JsResult A)) (message : string) :
  In (Throw message) settled ->
  exists reason, Promise_all first settled = Throw reason /\
                 In (Throw reason) settled.
Proof.
  intros Hin. apply rejections_In in Hin.
  unfold Promise_all.
  destruct (rejections settled) as [|m others] eqn:Hrej; [contradiction|].
  eexists. split; [reflexivity|].
  apply rejections_In. rewrite Hrej.
  destruct (Nat.lt_ge_cases first (List.length (m :: others))) as [Hlt | Hge].
  - now apply nth_In.
  - rewrite nth_overflow by exact Hge. now left.
Qed.

Lemma map_eq_Forall2 {A B C : Type} (f : A -> C) (g : B -> C)
  (xs : list A) (ys : list B) :
  map f xs = map g ys -> Forall2 (fun x y => f x = g y) xs ys.
Proof.
  revert ys. induction xs as [|x xs IH]; intros [|y ys] H; simpl in H;
    try discriminate H.
  - constructor.
  - injection H as Hhead Htail. constructor; auto.
Qed.

(** ** The pipeline *)

Lemma outcome_bind {A B : Type} (m : Async A) (k : A -> Async B) :
  outcome (bind m k)
  = match outcome m with
    | Return a => outcome (k a)
    | Throw message => Throw message
    end.
Proof.
  destruct m as [[a | message] calls]; simpl; [|reflexivity].
  now destruct (k a).
Qed.

Lemma callsOf_bind {A B : Type} (m : Async A) (k : A -> Async B) :
  callsOf (bind m k)
  = (callsOf m ++ match outcome m with
                  | Return a => callsOf (k a)
                  | Throw _ => []
                  end)%list.
Proof.
  destruct m as [[a | message] calls]; simpl.
  - now destruct (k a).
  - now rewrite app_nil_r.
Qed.

Lemma outcome_tryCatch {A : Type} (m : Async A) (handler : string -> Async A) :
  outcome (tryCatch m handler)
  = match outcome m with
    | Return a => Return a
    | Throw message => outcome (handler message)
    end.
Proof.
  destruct m as [[a | message] calls]; simpl; [reflexivity|].
  now destruct (handler message).
Qed.

Lemma callsOf_tryCatch {A : Type} (m : Async A) (handler : string -> Async A) :
  callsOf (tryCatch m handler)
  = (callsOf m ++ match outcome m with
                  | Return _ => []
                  | Throw message => callsOf (handler message)
                  end)%list.
Proof.
  destruct m as [[a | message] calls]; simpl.
  - now rewrite app_nil_r.
  - now destruct (handler message).
Qed.

Lemma orElse_idempotent (x : number) :
  orElse (orElse x eighty) eighty = orElse x eighty.
Proof.
  unfold orElse. destruct (truthy x) eqn:Hx; [now rewrite Hx | reflexivity].
Qed.

Section Pipeline.

Context {sharp : Sharp} {builtins : Builtins}.

Lemma outcome_inspect (buffer : Buffer) :
  outcome (inspect buffer)
  = match sharp_new buffer with
    | Return _ => sharp_metadata buffer
    | Throw message => Throw message
    end.
Proof.
  unfold inspect. rewrite outcome_bind. reflexivity.
Qed.

Lemma inspect_calls (q : number) (buffer : Buffer) :
  Forall (usesQuality q) (callsOf (inspect buffer)).
Proof.
  unfold inspect. rewrite callsOf_bind.
  unfold instance, metadata. cbn [outcome callsOf fst snd app].
  destruct (sharp_new buffer); repeat constructor.
Qed.

Lemma processFile_fulfilled (targetFormat : string) (quality : number)
  (lossless : bool) (file : File) (record : ConvertedFile) :
  outcome (processFile targetFormat quality lossless file) = Return record ->
  isValidImageType file = true /\
  name record = outputName (file_name file) targetFormat /\
  type record = lookup SUPPORTED_FORMATS targetFormat /\
  originalName record = file_name file.
Proof.
  unfold processFile.
  destruct (isValidImageType file) eqn:Hvalid; cbn [negb];
    [|intros H; discriminate H].
  rewrite outcome_tryCatch, outcome_bind.
  destruct (outcome (inspect (file_bytes file))) as [[originalInfo|]|m];
    try (intros H; discriminate H).
  rewrite outcome_bind.
  destruct (outcome (convertImage _ _ _)) as [convertedBuffer|m];
    try (intros H; discriminate H).
  rewrite outcome_bind.
  destruct (outcome (inspect convertedBuffer)) as [[convertedInfo|]|m];
    try (intros H; discriminate H).
  unfold ret, outcome. cbn [fst]. intros H. injection H as <-.
  cbn [name type originalName]. repeat split.
Qed.

Lemma convertImage_calls (buffer : Buffer) (format : string) (options : Options) :
  Forall (usesQuality (encodeQuality options))
    (callsOf (convertImage buffer format options)).
Proof.
  unfold convertImage. rewrite callsOf_bind.
  unfold instance at 1 2. cbn [outcome callsOf fst snd app].
  destruct (sharp_new buffer) as [created|m]; [|constructor].
  rewrite callsOf_tryCatch, callsOf_bind, outcome_bind.
  unfold metadata. cbn [outcome callsOf fst snd throw].
  apply Forall_app; split; [apply Forall_app; split|].
  - repeat constructor.
  - destruct (sharp_metadata buffer) as [[info|]|m]; try constructor.
    destruct (formatCase format); cbn [callsOf snd toBuffer];
      repeat constructor.
  - match goal with
    | |- Forall _ match ?o with _ => _ end => destruct o; constructor
    end.
Qed.

Lemma processFile_calls (targetFormat : string) (quality : number)
  (lossless : bool) (file : File) :
  Forall (usesQuality (orElse quality eighty))
    (callsOf (processFile targetFormat quality lossless file)).
Proof.
  unfold processFile.
  destruct (isValidImageType file); cbn [negb]; [|constructor].
  rewrite callsOf_tryCatch, callsOf_bind.
  apply Forall_app; split; [apply Forall_app; split|].
  - apply inspect_calls.
  - destruct (outcome (inspect (file_bytes file))) as [[originalInfo|]|m];
      try constructor.
    rewrite callsOf_bind. apply Forall_app. split.
    + apply (convertImage_calls (file_bytes file) targetFormat
               {| opt_quality := Some quality; opt_lossless := Some lossless |}).
    + destruct (outcome (convertImage _ _ _)) as [convertedBuffer|m];
        [|constructor].
      rewrite callsOf_bind. apply Forall_app. split; [apply inspect_calls|].
      destruct (outcome (inspect convertedBuffer)) as [[convertedInfo|]|m];
        constructor.
  - match goal with
    | |- Forall _ match ?o with _ => _ end => destruct o; constructor
    end.
Qed.

End Pipeline.
(** ** The handler *)

Section Handler.

Context {sharp : Sharp} {builtins : Builtins}.

Lemma upload_no_files (first : nat) (formData : FormData) :
  fd_files formData = [] ->
  upload first (Return formData) = badRequest "No files provided".
Proof.
  intros H. unfold upload. now rewrite H.
Qed.

Lemma upload_unsupported (first : nat) (formData : FormData) :
  fd_files formData <> [] ->
  (forall targetFormat, fd_targetFormat formData = Some targetFormat ->
                        ~ In targetFormat (Object_keys SUPPORTED_FORMATS)) ->
  upload first (Return formData) = badRequest "Unsupported format".
Proof.
  intros Hfiles Hformat. unfold upload.
  destruct (fd_files formData) as [|file files]; [contradiction|].
  cbn [List.length Nat.eqb].
  destruct (fd_targetFormat formData) as [targetFormat|]; [|reflexivity].
  destruct (includes (Object_keys SUPPORTED_FORMATS) targetFormat) eqn:Hinc;
    [|reflexivity].
  apply includes_In in Hinc. now apply Hformat in Hinc.
Qed.

Lemma upload_validated (first : nat) (formData : FormData)
  (targetFormat : string) :
  fd_files formData <> [] ->
  fd_targetFormat formData = Some targetFormat ->
  In targetFormat (Object_keys SUPPORTED_FORMATS) ->
  upload first (Return formData) = batch first targetFormat formData.
Proof.
  intros Hfiles Hformat Hkey. unfold upload, batch.
  destruct (fd_files formData) as [|file files] eqn:Hf; [contradiction|].
  cbn [List.length Nat.eqb]. rewrite Hformat.
  apply includes_In in Hkey. now rewrite Hkey.
Qed.

(** The three ways through the handler. *)
Lemma upload_cases (first : nat) (formData : FormData) :
  (fd_files formData = [] /\
   upload first (Return formData) = badRequest "No files provided") \/
  (fd_files formData <> [] /\
   upload first (Return formData) = badRequest "Unsupported format") \/
  (exists targetFormat,
     fd_files formData <> [] /\
     fd_targetFormat formData = Some targetFormat /\
     In targetFormat (Object_keys SUPPORTED_FORMATS) /\
     upload first (Return formData) = batch first targetFormat formData).
Proof.
  destruct (fd_files formData) as [|file files] eqn:Hfiles.
  - left. split; [reflexivity|]. now apply upload_no_files.
  - right.
    assert (Hne : fd_files formData <> []) by (rewrite Hfiles; discriminate).
    rewrite <- Hfiles.
    destruct (fd_targetFormat formData) as [targetFormat|] eqn:Hformat.
    + destruct (in_dec string_dec targetFormat (Object_keys SUPPORTED_FORMATS))
        as [Hkey | Hkey].
      * right. exists targetFormat. repeat split; auto.
        now apply upload_validated.
      * left. split; [exact Hne|]. apply upload_unsupported; [exact Hne|].
        intros tf Htf. rewrite Hformat in Htf. now injection Htf as <-.
    + left. split; [exact Hne|]. apply upload_unsupported; [exact Hne|].
      intros tf Htf. rewrite Hformat in Htf. discriminate Htf.
Qed.

Lemma upload_success (first : nat) (formData : FormData) (message : string)
  (results : list ConvertedFile) :
  body (response (upload first (Return formData))) = SuccessBody message results ->
  exists targetFormat,
    fd_targetFormat formData = Some targetFormat /\
    In targetFormat (Object_keys SUPPORTED_FORMATS) /\
    Forall2 (fun file record =>
               outcome (processFile targetFormat (requestQuality formData)
                          (isTrue (fd_lossless formData)) file) = Return record)
            (fd_files formData) results.
Proof.
  destruct (upload_cases first formData)
    as [[_ Hrun] | [[_ Hrun] | (targetFormat & _ & Hformat & Hkey & Hrun)]];
    rewrite Hrun; try (intros H; discriminate H).
  unfold batch. cbn [response].
  destruct (Promise_all first _) as [convertedFiles | reason] eqn:Hall;
    cbn [body]; intros H; [|discriminate H].
  injection H as _ <-.
  exists targetFormat. repeat split; auto.
  apply Promise_all_fulfilled in Hall. rewrite map_map in Hall.
  now apply map_eq_Forall2 in Hall.
Qed.

Lemma processFile_invalid_type (targetFormat : string) (quality : number)
  (lossless : bool) (file : File) :
  isValidImageType file = false ->
  outcome (processFile targetFormat quality lossless file)
  = Throw ("Invalid file type: " ++ file_name file).
Proof.
  intros H. unfold processFile. now rewrite H.
Qed.

Lemma processFile_unreadable (targetFormat : string) (quality : number)
  (lossless : bool) (file : File) (reason : string) :
  isValidImageType file = true ->
  outcome (inspect (file_bytes file)) = Throw reason ->
  outcome (processFile targetFormat quality lossless file)
  = Throw ("Failed to convert " ++ file_name file ++ ": " ++ reason).
Proof.
  intros Hvalid Hmeta. unfold processFile. rewrite Hvalid. cbn [negb].
  rewrite outcome_tryCatch, outcome_bind. now rewrite Hmeta.
Qed.

Lemma processFile_encode_failure (targetFormat : string) (quality : number)
  (lossless : bool) (file : File) (info : Metadata) (reason : string) :
  isValidImageType file = true ->
  outcome (inspect (file_bytes file)) = Return (Some info) ->
  outcome (convertImage (file_bytes file) targetFormat
             {| opt_quality := Some quality; opt_lossless := Some lossless |})
  = Throw reason ->
  outcome (processFile targetFormat quality lossless file)
  = Throw ("Failed to convert " ++ file_name file ++ ": " ++ reason).
Proof.
  intros Hvalid Hmeta Hconv. unfold processFile. rewrite Hvalid. cbn [negb].
  rewrite outcome_tryCatch, outcome_bind. rewrite Hmeta, outcome_bind.
  cbv zeta. now rewrite Hconv.
Qed.

Lemma processFile_rejected (targetFormat : string) (quality : number)
  (lossless : bool) (file : File) :
  isValidImageType file = false \/
  (exists reason, outcome (inspect (file_bytes file)) = Throw reason) \/
  (exists reason,
     outcome (convertImage (file_bytes file) targetFormat
                {| opt_quality := Some quality; opt_lossless := Some lossless |})
     = Throw reason) ->
  exists reason,
    outcome (processFile targetFormat quality lossless file) = Throw reason.
Proof.
  destruct (isValidImageType file) eqn:Hvalid.
  - destruct (outcome (inspect (file_bytes file))) as [[info|]|m] eqn:Hmeta.
    + intros [H | [[reason H] | [reason H]]]; try discriminate H.
      eexists. apply (processFile_encode_failure _ _ _ _ info reason); assumption.
    + intros _. eexists. unfold processFile. rewrite Hvalid. cbn [negb].
      rewrite outcome_tryCatch, outcome_bind, Hmeta. reflexivity.
    + intros _. eexists. apply (processFile_unreadable _ _ _ _ m); assumption.
  - intros _. eexists. apply processFile_invalid_type. assumption.
Qed.

Lemma upload_tasks (first : nat) (formData : FormData) (targetFormat : string) :
  fd_targetFormat formData = Some targetFormat ->
  In targetFormat (Object_keys SUPPORTED_FORMATS) ->
  tasks (upload first (Return formData))
  = map (fun file =>
           outcome (processFile targetFormat (requestQuality formData)
                      (isTrue (fd_lossless formData)) file))
        (fd_files formData).
Proof.
  intros Hformat Hkey.
  destruct (fd_files formData) as [|file files] eqn:Hfiles.
  - now rewrite (upload_no_files first formData Hfiles).
  - rewrite (upload_validated first formData targetFormat); auto.
    + unfold batch. cbn [tasks]. now rewrite map_map, Hfiles.
    + rewrite Hfiles. discriminate.
Qed.

Lemma upload_task_rejected (first : nat) (formData : FormData) (reason : string) :
  In (Throw reason) (tasks (upload first (Return formData))) ->
  status (response (upload first (Return formData))) = 500 /\
  (exists details,
     body (response (upload first (Return formData)))
     = ErrorBody "Error processing files" (Some details) /\
     In (Throw details) (tasks (upload first (Return formData)))) /\
  (forall message results,
     body (response (upload first (Return formData)))
     <> SuccessBody message results).
Proof.
  destruct (upload_cases first formData)
    as [[_ Hrun] | [[_ Hrun] | (tf & _ & _ & _ & Hrun)]];
    rewrite Hrun; try (intros []).
  intros Hin. unfold batch in *. cbn [tasks response] in *.
  destruct (Promise_all_rejected first _ _ Hin) as (details & Hall & Hd).
  rewrite Hall. cbn [status body].
  split; [reflexivity|]. split.
  - exists details. now split.
  - intros message results H. discriminate H.
Qed.

End Handler.

Lemma Forall2_right {A B : Type} (R : A -> B -> Prop) (P : B -> Prop)
  (xs : list A) (ys : list B) :
  (forall x y, R x y -> P y) -> Forall2 R xs ys -> Forall P ys.
Proof.
  intros HRP H. induction H; constructor; eauto.
Qed.

Lemma formatCase_default (format : string) :
  formatCase format = CaseDefault <->
  ~ In (toLowerCase format) (Object_keys SUPPORTED_FORMATS).
Proof.
  unfold formatCase. cbv zeta.
  cbn [Object_keys SUPPORTED_FORMATS map fst In].
  repeat match goal with
         | |- context [String.eqb ?a ?b] =>
             destruct (String.eqb_spec a b) as [-> | ?]
         end;
    (split; [intros H; try discriminate H | intros H; try reflexivity]).
  all: try (exfalso; apply H; tauto).
  intros [E | [E | [E | [E | [E | []]]]]]; symmetry in E; contradiction.
Qed.

Section Arms.

Context {sharp : Sharp}.

(** The outcome and the calls of [convertImage] once the constructor has
    accepted the buffer and the metadata has been read. *)
Lemma convertImage_encoding (buffer : Buffer) (format : string)
  (options : Options) (created : unit) (info : Metadata) :
  sharp_new buffer = Return created ->
  sharp_metadata buffer = Return (Some info) ->
  convertImage buffer format options
  = match formatCase format with
    | CaseWebp =>
        let encoder := webp (encodeQuality options) (opt_lossless options) in
        match sharp_toBuffer buffer encoder with
        | Return out => (Return out, [MetadataCall buffer; EncodeCall buffer encoder])
        | Throw inner =>
            (Throw ("Failed to convert to " ++ format ++ ": " ++ inner),
             [MetadataCall buffer; EncodeCall buffer encoder])
        end
    | CaseAvif =>
        let encoder := avif (encodeQuality options) (opt_lossless options) in
        match sharp_toBuffer buffer encoder with
        | Return out => (Return out, [MetadataCall buffer; EncodeCall buffer encoder])
        | Throw inner =>
            (Throw ("Failed to convert to " ++ format ++ ": " ++ inner),
             [MetadataCall buffer; EncodeCall buffer encoder])
        end
    | CaseJpeg =>
        let encoder := jpeg (encodeQuality options) true in
        match sharp_toBuffer buffer encoder with
        | Return out => (Return out, [MetadataCall buffer; EncodeCall buffer encoder])
        | Throw inner =>
            (Throw ("Failed to convert to " ++ format ++ ": " ++ inner),
             [MetadataCall buffer; EncodeCall buffer encoder])
        end
    | CasePng =>
        let encoder := png (encodeQuality options) 9 in
        match sharp_toBuffer buffer encoder with
        | Return out => (Return out, [MetadataCall buffer; EncodeCall buffer encoder])
        | Throw inner =>
            (Throw ("Failed to convert to " ++ format ++ ": " ++ inner),
             [MetadataCall buffer; EncodeCall buffer encoder])
        end
    | CaseDefault =>
        (Throw ("Failed to convert to " ++ format ++ ": "
                ++ ("Unsupported format: " ++ format)),
         [MetadataCall buffer])
    end.
Proof.
  intros Hnew Hmeta.
  unfold convertImage, instance, metadata, toBuffer, bind, tryCatch, throw.
  rewrite Hnew, Hmeta.
  destruct (formatCase format); cbv zeta;
    try (destruct (sharp_toBuffer buffer _)); reflexivity.
Qed.

Lemma convertImage_refused (buffer : Buffer) (format : string)
  (options : Options) (reason : string) :
  sharp_new buffer = Throw reason ->
  convertImage buffer format options = (Throw reason, []).
Proof.
  intros Hnew. unfold convertImage, instance, bind. now rewrite Hnew.
Qed.

Lemma convertImage_unreadable (buffer : Buffer) (format : string)
  (options : Options) (created : unit) :
  sharp_new buffer = Return created ->
  (forall info, sharp_metadata buffer <> Return (Some info)) ->
  convertImage buffer format options
  = (Throw ("Failed to convert to " ++ format ++ ": "
            ++ match sharp_metadata buffer with
               | Throw inner => inner
               | Return _ => "Could not read image metadata"
               end),
     [MetadataCall buffer]).
Proof.
  intros Hnew Hmeta.
  unfold convertImage, instance, metadata, bind, tryCatch, throw.
  rewrite Hnew.
  destruct (sharp_metadata buffer) as [[info|]|inner]; try reflexivity.
  now destruct (Hmeta info).
Qed.

End Arms.

(** ** The claims *)

Section Claims.

Context {sharp : Sharp} {builtins : Builtins}.

(** C1.  All-or-nothing: the tasks of a validated request are the
    per-file pipelines of its files; as soon as one of them fails, the
    response is the 500 error carrying the reason of a failed file and
    never a success with the results of the other files; and a file
    whose declared type is unacceptable, whose metadata cannot be read or
    whose encoding fails does make its pipeline fail. *)
Theorem upload_all_or_nothing (first : nat) (formData : FormData) :
  (forall targetFormat,
     fd_targetFormat formData = Some targetFormat ->
     In targetFormat (Object_keys SUPPORTED_FORMATS) ->
     tasks (upload first (Return formData))
     = map (fun file =>
              outcome (processFile targetFormat (requestQuality formData)
                         (isTrue (fd_lossless formData)) file))
           (fd_files formData)) /\
  (forall reason,
     In (Throw reason) (tasks (upload first (Return formData))) ->
     status (response (upload first (Return formData))) = 500 /\
     (exists details,
        body (response (upload first (Return formData)))
        = ErrorBody "Error processing files" (Some details) /\
        In (Throw details) (tasks (upload first (Return formData)))) /\
     (forall message results,
        body (response (upload first (Return formData)))
        <> SuccessBody message results)) /\
  (forall targetFormat file,
     fd_targetFormat formData = Some targetFormat ->
     In targetFormat (Object_keys SUPPORTED_FORMATS) ->
     In file (fd_files formData) ->
     isValidImageType file = false \/
     (exists reason, outcome (inspect (file_bytes file)) = Throw reason) \/
     (exists reason,
        outcome (convertImage (file_bytes file) targetFormat
                   {| opt_quality := Some (requestQuality formData);
                      opt_lossless := Some (isTrue (fd_lossless formData)) |})
        = Throw reason) ->
     status (response (upload first (Return formData))) = 500 /\
     exists details,
       body (response (upload first (Return formData)))
       = ErrorBody "Error processing files" (Some details)).
Proof.
  split; [|split].
  - apply upload_tasks.
  - apply upload_task_rejected.
  - intros targetFormat file Hformat Hkey Hfile Hcause.
    destruct (processFile_rejected targetFormat (requestQuality formData)
                (isTrue (fd_lossless formData)) file Hcause) as [reason Hrej].
    assert (Hin : In (Throw reason) (tasks (upload first (Return formData)))).
    { rewrite (upload_tasks first formData targetFormat Hformat Hkey).
      rewrite <- Hrej.
      apply (in_map (fun file =>
                       outcome (processFile targetFormat (requestQuality formData)
                                  (isTrue (fd_lossless formData)) file))).
      exact Hfile. }
    destruct (upload_task_rejected first formData reason Hin)
      as (Hstatus & (details & Hbody & _) & _).
    split; [exact Hstatus|]. now exists details.
Qed.

(** C2.  In a success response every file record's [type] is the MIME
    type the format registry gives for the request's target format. *)
Theorem success_type_matches_registry (first : nat) (formData : FormData)
  (message : string) (results : list ConvertedFile) :
  body (response (upload first (Return formData))) = SuccessBody message results ->
  exists targetFormat mime,
    fd_targetFormat formData = Some targetFormat /\
    lookup SUPPORTED_FORMATS targetFormat = Some mime /\
    Forall (fun record => type record = Some mime) results.
Proof.
  intros H.
  destruct (upload_success first formData _ _ H) as (tf & Hformat & Hkey & Hall).
  destruct (lookup_key tf Hkey) as (mime & Hmime & _).
  exists tf, mime. repeat split; auto.
  apply (Forall2_right
           (fun file record =>
              outcome (processFile tf (requestQuality formData)
                         (isTrue (fd_lossless formData)) file)
              = Return record)
           _ (fd_files formData)); [|exact Hall].
  intros file record Hrec.
  apply processFile_fulfilled in Hrec.
  destruct Hrec as (_ & _ & Htype & _). now rewrite Htype.
Qed.

(** C4.  In a success response the record of every file is named by the
    part of the original name before its first ".", then "." and the
    lower-cased target format; "photo.with.dots.png" converted to webp
    is named "photo.webp". *)
Theorem success_name_before_first_dot (first : nat) (formData : FormData)
  (message : string) (results : list ConvertedFile) :
  body (response (upload first (Return formData))) = SuccessBody message results ->
  (exists targetFormat,
     fd_targetFormat formData = Some targetFormat /\
     Forall2 (fun file record =>
                name record
                = beforeFirstDot (file_name file) ++ "." ++ toLowerCase targetFormat)
             (fd_files formData) results) /\
  outputName "photo.with.dots.png" "webp" = "photo.webp".
Proof.
  intros H. split; [|reflexivity].
  destruct (upload_success first formData _ _ H) as (tf & Hformat & Hkey & Hall).
  exists tf. split; [exact Hformat|].
  revert Hall. apply Forall2_impl. intros file record Hrec.
  apply processFile_fulfilled in Hrec.
  destruct Hrec as (_ & Hname & _). rewrite Hname.
  apply outputName_beforeFirstDot.
Qed.

(** C5.  The quality of a request is 80 when the [quality] field is
    absent, is not a number or is zero, and the number the field denotes
    otherwise; every encoder started for the request is given that
    quality. *)
Theorem quality_default (first : nat) (formData : FormData) :
  requestQuality formData
  = match fd_quality formData with
    | None => eighty
    | Some text =>
        match StringToNumber text with
        | S754_nan => eighty
        | S754_zero _ => eighty
        | S754_infinity s => S754_infinity s
        | S754_finite s m e => S754_finite s m e
        end
    end /\
  eighty = literal 80 /\
  Forall (usesQuality (requestQuality formData))
    (sharpCalls (upload first (Return formData))).
Proof.
  split; [|split].
  - unfold requestQuality, Number, orElse.
    destruct (fd_quality formData) as [text|]; [|reflexivity].
    now destruct (StringToNumber text).
  - reflexivity.
  - destruct (upload_cases first formData)
      as [[_ Hrun] | [[_ Hrun] | (tf & _ & _ & _ & Hrun)]];
      rewrite Hrun; try constructor.
    unfold batch. cbn [sharpCalls].
    apply Forall_concat. apply Forall_map. apply Forall_forall.
    intros task Htask. apply in_map_iff in Htask.
    destruct Htask as (file & <- & _).
    unfold requestQuality at 1. rewrite <- orElse_idempotent.
    apply processFile_calls.
Qed.

(** C6.  A request without files is answered 400 with the error
    "No files provided"; no per-file task is started and the image
    library is not called. *)
Theorem zero_files_rejected (first : nat) (formData : FormData) :
  fd_files formData = [] ->
  response (upload first (Return formData))
  = {| status := 400; body := ErrorBody "No files provided" None |} /\
  tasks (upload first (Return formData)) = [] /\
  sharpCalls (upload first (Return formData)) = [].
Proof.
  intros H. rewrite (upload_no_files first formData H). now repeat split.
Qed.

(** C7, amended.  A request whose target format is not a key of the
    format registry is answered 400; when it supplies at least one file
    the error is "Unsupported format", and nothing is converted. *)
Theorem unsupported_format_rejected (first : nat) (formData : FormData) :
  (forall targetFormat, fd_targetFormat formData = Some targetFormat ->
                        ~ In targetFormat (Object_keys SUPPORTED_FORMATS)) ->
  status (response (upload first (Return formData))) = 400 /\
  (fd_files formData <> [] ->
   response (upload first (Return formData))
   = {| status := 400; body := ErrorBody "Unsupported format" None |} /\
   tasks (upload first (Return formData)) = [] /\
   sharpCalls (upload first (Return formData)) = []).
Proof.
  intros Hformat. split.
  - destruct (upload_cases first formData)
      as [[_ Hrun] | [[_ Hrun] | (tf & _ & Htf & Hkey & _)]];
      try (now rewrite Hrun).
    now apply Hformat in Htf.
  - intros Hfiles.
    rewrite (upload_unsupported first formData Hfiles Hformat).
    now repeat split.
Qed.


(** C9.  A request that has no files and asks for an unsupported target
    format is answered with the 400 "No files provided" error: the
    emptiness check comes first. *)
Theorem no_files_before_format (first : nat) (formData : FormData) :
  fd_files formData = [] ->
  (forall targetFormat, fd_targetFormat formData = Some targetFormat ->
                        ~ In targetFormat (Object_keys SUPPORTED_FORMATS)) ->
  response (upload first (Return formData))
  = {| status := 400; body := ErrorBody "No files provided" None |}.
Proof.
  intros Hfiles _. now rewrite (upload_no_files first formData Hfiles).
Qed.

(** C10.  A name without "." is kept whole and followed by "." and the
    lower-cased target format; a name that begins with "." gives just "."
    and the lower-cased target format.  This is the name of the record of
    every such file in a success response. *)
Theorem outputName_without_dot_or_leading_dot (first : nat)
  (formData : FormData) (fileName targetFormat : string) :
  (dotFree fileName ->
   outputName fileName targetFormat = fileName ++ "." ++ toLowerCase targetFormat) /\
  (forall rest,
     fileName = "." ++ rest ->
     outputName fileName targetFormat = "." ++ toLowerCase targetFormat) /\
  (forall message results,
     body (response (upload first (Return formData)))
     = SuccessBody message results ->
     exists format,
       fd_targetFormat formData = Some format /\
       Forall2 (fun file record => name record = outputName (file_name file) format)
               (fd_files formData) results).
Proof.
  split; [|split].
  - intros Hfree. rewrite outputName_beforeFirstDot.
    now rewrite (beforeFirstDot_dotFree _ Hfree).
  - intros rest ->. reflexivity.
  - intros message results H.
    destruct (upload_success first formData _ _ H) as (tf & Hformat & _ & Hall).
    exists tf. split; [exact Hformat|].
    revert Hall. apply Forall2_impl. intros file record Hrec.
    now apply processFile_fulfilled in Hrec.
Qed.

End Claims.

(** ** The claims on the concrete platform *)

Lemma upload_all_or_nothing_witness :
  In (Throw "Invalid file type: notes.txt")
     (tasks (Demo.run 0 (Demo.form [Demo.photo; Demo.notes] "webp"))) /\
  status (response (Demo.run 0 (Demo.form [Demo.photo; Demo.notes] "webp"))) = 500.
Proof.
  assert (H : In (Throw "Invalid file type: notes.txt")
                (tasks (Demo.run 0 (Demo.form [Demo.photo; Demo.notes] "webp")))).
  { vm_compute. right. left. reflexivity. }
  split; [exact H|].
  exact (proj1 (proj1 (proj2 (@upload_all_or_nothing Demo.sharp Demo.builtins 0
                                (Demo.form [Demo.photo; Demo.notes] "webp")))
                  _ H)).
Defined.

Lemma success_type_matches_registry_witness :
  exists message results,
    body (response (Demo.run 0 (Demo.form [Demo.photo; Demo.hidden] "jpg")))
    = SuccessBody message results /\
    exists targetFormat mime,
      fd_targetFormat (Demo.form [Demo.photo; Demo.hidden] "jpg")
      = Some targetFormat /\
      lookup SUPPORTED_FORMATS targetFormat = Some mime /\
      Forall (fun record => type record = Some mime) results.
Proof.
  eexists. eexists. split.
  - vm_compute. reflexivity.
  - apply (@success_type_matches_registry Demo.sharp Demo.builtins 0
             (Demo.form [Demo.photo; Demo.hidden] "jpg")
             "Files converted successfully").
    vm_compute. reflexivity.
Defined.

Lemma success_name_before_first_dot_witness :
  exists message results,
    body (response (Demo.run 0 (Demo.form [Demo.photo] "webp")))
    = SuccessBody message results /\
    exists targetFormat,
      fd_targetFormat (Demo.form [Demo.photo] "webp") = Some targetFormat /\
      Forall2 (fun file record =>
                 name record
                 = beforeFirstDot (file_name file) ++ "." ++ toLowerCase targetFormat)
              [Demo.photo] results.
Proof.
  eexists. eexists. split.
  - vm_compute. reflexivity.
  - apply (@success_name_before_first_dot Demo.sharp Demo.builtins 0
             (Demo.form [Demo.photo] "webp") "Files converted successfully").
    vm_compute. reflexivity.
Defined.

Lemma zero_files_rejected_witness :
  fd_files (Demo.form [] "webp") = [] /\
  response (Demo.run 0 (Demo.form [] "webp"))
  = {| status := 400; body := ErrorBody "No files provided" None |}.
Proof.
  split; [reflexivity|].
  apply (@zero_files_rejected Demo.sharp Demo.builtins 0 (Demo.form [] "webp")).
  reflexivity.
Defined.

Lemma bmp_not_a_key (formData : FormData) :
  fd_targetFormat formData = Some "bmp" ->
  forall targetFormat, fd_targetFormat formData = Some targetFormat ->
                       ~ In targetFormat (Object_keys SUPPORTED_FORMATS).
Proof.
  intros Hbmp targetFormat H. rewrite Hbmp in H. injection H as <-.
  cbn. intros [E | [E | [E | [E | [E | []]]]]]; discriminate E.
Defined.

(** C7 as stated fails: without files, an unsupported target format is
    answered with the other 400 error. *)
Lemma unsupported_format_counterexample :
  ~ (forall (sharp : Sharp) (builtins : Builtins) (first : nat)
            (formData : FormData),
       (forall targetFormat,
          fd_targetFormat formData = Some targetFormat ->
          ~ In targetFormat (Object_keys SUPPORTED_FORMATS)) ->
       response (upload first (Return formData))
       = {| status := 400; body := ErrorBody "Unsupported format" None |}).
Proof.
  intros H.
  specialize (H Demo.sharp Demo.builtins 0 (Demo.form [] "bmp")
                (bmp_not_a_key (Demo.form [] "bmp") eq_refl)).
  vm_compute in H. discriminate H.
Qed.

Lemma unsupported_format_rejected_witness :
  fd_files (Demo.form [Demo.photo] "bmp") <> [] /\
  response (Demo.run 0 (Demo.form [Demo.photo] "bmp"))
  = {| status := 400; body := ErrorBody "Unsupported format" None |}.
Proof.
  assert (Hfiles : fd_files (Demo.form [Demo.photo] "bmp") <> [])
    by discriminate.
  split; [exact Hfiles|].
  apply (@unsupported_format_rejected Demo.sharp Demo.builtins 0
           (Demo.form [Demo.photo] "bmp")
           (bmp_not_a_key (Demo.form [Demo.photo] "bmp") eq_refl)).
  exact Hfiles.
Defined.



Lemma no_files_before_format_witness :
  fd_files (Demo.form [] "bmp") = [] /\
  ~ In "bmp" (Object_keys SUPPORTED_FORMATS) /\
  response (Demo.run 0 (Demo.form [] "bmp"))
  = {| status := 400; body := ErrorBody "No files provided" None |}.
Proof.
  split; [reflexivity|]. split.
  - apply (bmp_not_a_key (Demo.form [] "bmp") eq_refl "bmp"). reflexivity.
  - apply (@no_files_before_format Demo.sharp Demo.builtins 0
             (Demo.form [] "bmp")).
    + reflexivity.
    + apply bmp_not_a_key. reflexivity.
Defined.

Lemma outputName_without_dot_or_leading_dot_witness :
  outputName "README" "PNG" = "README.png" /\
  outputName ".hidden.png" "avif" = ".avif" /\
  exists results,
    body (response (Demo.run 0 (Demo.form [Demo.readme; Demo.hidden] "png")))
    = SuccessBody "Files converted successfully" results /\
    map name results = ["README.png"; ".png"].
Proof.
  split; [|split].
  - apply (proj1 (@outputName_without_dot_or_leading_dot Demo.sharp
                    Demo.builtins 0 (Demo.form [] "png") "README" "PNG")).
    unfold dotFree. cbn.
    intros [E | [E | [E | [E | [E | [E | []]]]]]]; discriminate E.
  - apply (proj1 (proj2 (@outputName_without_dot_or_leading_dot Demo.sharp
                           Demo.builtins 0 (Demo.form [] "png")
                           ".hidden.png" "avif")) "hidden.png").
    reflexivity.
  - eexists. split; [vm_compute; reflexivity|].
    destruct (proj2 (proj2 (@outputName_without_dot_or_leading_dot Demo.sharp
                              Demo.builtins 0
                              (Demo.form [Demo.readme; Demo.hidden] "png")
                              "README" "png"))
                _ _ eq_refl) as (format & Hformat & Hnames).
    injection Hformat as <-.
    inversion Hnames as [|? ? ? ? H1 Hrest]; subst.
    inversion Hrest as [|? ? ? ? H2 Hnil]; subst.
    reflexivity.
Defined.

(** * Further properties of the program *)

(** ** Names *)

Lemma list_ascii_of_string_append (a b : string) :
  list_ascii_of_string (a ++ b)
  = (list_ascii_of_string a ++ list_ascii_of_string b)%list.
Proof.
  induction a as [|c a IH]; simpl; [reflexivity | now rewrite IH].
Qed.

Lemma append_cancel_r (a b c : string) : a ++ c = b ++ c -> a = b.
Proof.
  intros H.
  apply (f_equal list_ascii_of_string) in H.
  rewrite !list_ascii_of_string_append in H.
  apply app_inv_tail in H.
  rewrite <- (string_of_list_ascii_of_string a).
  rewrite <- (string_of_list_ascii_of_string b).
  now rewrite H.
Qed.

Lemma split_append_dot (base rest : string) :
  dotFree base ->
  split (base ++ String "." rest) "." = base :: split rest ".".
Proof.
  unfold dotFree.
  induction base as [|c base IH]; simpl; intros Hfree.
  - reflexivity.
  - destruct (Ascii.eqb_spec c ".") as [-> | Hc].
    + exfalso. apply Hfree. now left.
    + rewrite IH; [reflexivity|]. intros Hin. apply Hfree. now right.
Qed.

Lemma beforeFirstDot_append_dot (base rest : string) :
  dotFree base -> beforeFirstDot (base ++ String "." rest) = base.
Proof.
  unfold dotFree.
  induction base as [|c base IH]; simpl; intros Hfree.
  - reflexivity.
  - destruct (Ascii.eqb_spec c ".") as [-> | Hc].
    + exfalso. apply Hfree. now left.
    + f_equal. apply IH. intros Hin. apply Hfree. now right.
Qed.

Lemma split_key (key : string) :
  In key (Object_keys SUPPORTED_FORMATS) -> split key "." = [key].
Proof.
  simpl. intros H.
  repeat (destruct H as [<- | H]; [reflexivity|]).
  contradiction.
Qed.

(** X10.  For a target format of the registry the output name has a
    single extension: split on "." it is the base of the original name
    and the format; deriving the name of an already converted file again
    changes nothing. *)
Theorem outputName_single_extension (fileName targetFormat : string) :
  In targetFormat (Object_keys SUPPORTED_FORMATS) ->
  split (outputName fileName targetFormat) "."
  = [beforeFirstDot fileName; targetFormat] /\
  outputName (outputName fileName targetFormat) targetFormat
  = outputName fileName targetFormat.
Proof.
  intros Hkey.
  destruct (beforeFirstDot_prefix fileName) as [Hfree _].
  rewrite !outputName_beforeFirstDot, (toLowerCase_key _ Hkey).
  change ("." ++ targetFormat) with (String "." targetFormat).
  split.
  - now rewrite (split_append_dot _ _ Hfree), (split_key _ Hkey).
  - now rewrite (beforeFirstDot_append_dot _ _ Hfree).
Qed.

Lemma outputName_single_extension_witness :
  split (outputName "photo.with.dots.png" "webp") "." = ["photo"; "webp"] /\
  outputName (outputName "photo.with.dots.png" "webp") "webp"
  = outputName "photo.with.dots.png" "webp".
Proof.
  apply (outputName_single_extension "photo.with.dots.png" "webp").
  simpl. tauto.
Defined.

(** X14.  Two original names get the same output name exactly when
    they agree before their first ".": nothing else of the original
    name tells the results apart. *)
Theorem outputName_collision (name1 name2 targetFormat : string) :
  outputName name1 targetFormat = outputName name2 targetFormat <->
  beforeFirstDot name1 = beforeFirstDot name2.
Proof.
  rewrite !outputName_beforeFirstDot. split.
  - apply append_cancel_r.
  - now intros ->.
Qed.

(** ** The registry and the guard *)

(** X11.  Every MIME type of the registry starts with "image/", so the
    guard is decided by membership in the registry's values alone; and
    for every key of the registry the property read gives one of those
    values, so that a file declared with the MIME type of a registered
    format is accepted by the guard. *)
Theorem registry_types_accepted (file : File) :
  isValidImageType file
  = includes (Object_values SUPPORTED_FORMATS) (file_type file) /\
  (forall key,
     In key (Object_keys SUPPORTED_FORMATS) ->
     exists mime,
       lookup SUPPORTED_FORMATS key = Some mime /\
       In mime (Object_values SUPPORTED_FORMATS) /\
       (exists rest, mime = "image/" ++ rest)) /\
  (forall key,
     In key (Object_keys SUPPORTED_FORMATS) ->
     lookup SUPPORTED_FORMATS key = Some (file_type file) ->
     isValidImageType file = true).
Proof.
  assert (Hguard : isValidImageType file
                   = includes (Object_values SUPPORTED_FORMATS) (file_type file)).
  { unfold isValidImageType.
    destruct (includes _ (file_type file)) eqn:Hinc;
      [|apply andb_false_r].
    rewrite andb_true_r. apply includes_In in Hinc. simpl in Hinc.
    destruct Hinc as [H | [H | [H | [H | [H | []]]]]]; rewrite <- H;
      reflexivity. }
  split; [exact Hguard|]. split.
  - intros key Hkey. simpl in Hkey.
    repeat (destruct Hkey as [<- | Hkey];
            [eexists; split; [reflexivity|];
             split; [simpl; tauto | eexists; reflexivity]|]).
    contradiction.
  - intros key Hkey Hmime. rewrite Hguard. apply includes_In.
    destruct (lookup_key key Hkey) as (mime & Hread & Hvalue).
    rewrite Hmime in Hread. injection Hread as <-. exact Hvalue.
Qed.

Lemma registry_types_accepted_witness :
  In "jpg" (Object_keys SUPPORTED_FORMATS) /\
  lookup SUPPORTED_FORMATS "jpg" = Some "image/jpeg" /\
  isValidImageType (mkFile "photo.jpg" "image/jpeg" []) = true.
Proof.
  assert (Hkey : In "jpg" (Object_keys SUPPORTED_FORMATS))
    by (simpl; tauto).
  split; [exact Hkey|]. split; [reflexivity|].
  apply (proj2 (proj2 (registry_types_accepted
                         (mkFile "photo.jpg" "image/jpeg" []))) "jpg" Hkey).
  reflexivity.
Defined.

(** ** The conversion function *)

Lemma lowerChar_idempotent (c : ascii) : lowerChar (lowerChar c) = lowerChar c.
Proof.
  destruct c as [[] [] [] [] [] [] [] []]; reflexivity.
Qed.

Lemma toLowerCase_idempotent (s : string) :
  toLowerCase (toLowerCase s) = toLowerCase s.
Proof.
  induction s as [|c s IH]; simpl;
    [reflexivity | now rewrite lowerChar_idempotent, IH].
Qed.

Lemma formatCase_toLowerCase (format : string) :
  formatCase (toLowerCase format) = formatCase format.
Proof.
  unfold formatCase. now rewrite toLowerCase_idempotent.
Qed.

(** What the arm taken says about the lower-cased format. *)
Lemma formatCase_arm (format : string) :
  match formatCase format with
  | CaseWebp => toLowerCase format = "webp"
  | CaseAvif => toLowerCase format = "avif"
  | CaseJpeg => toLowerCase format = "jpg" \/ toLowerCase format = "jpeg"
  | CasePng => toLowerCase format = "png"
  | CaseDefault => ~ In (toLowerCase format) (Object_keys SUPPORTED_FORMATS)
  end.
Proof.
  destruct (formatCase format) eqn:Harm;
    try (now apply formatCase_default);
    revert Harm; unfold formatCase; cbv zeta;
    repeat match goal with
           | |- context [String.eqb ?a ?b] =>
               destruct (String.eqb_spec a b) as [? | ?]
           end;
    intros H; try discriminate H; tauto.
Qed.

Lemma truthy_orElse (x : number) : truthy (orElse x eighty) = true.
Proof.
  unfold orElse. destruct (truthy x) eqn:Hx; [exact Hx | reflexivity].
Qed.

Lemma truthy_encodeQuality (options : Options) :
  truthy (encodeQuality options) = true.
Proof.
  unfold encodeQuality.
  destruct (opt_quality options); [apply truthy_orElse | reflexivity].
Qed.

Section Conversion.

Context {sharp : Sharp}.

(** X1.  When [convertImage] returns, what it returns is the output of
    the one encoder it started on the buffer, after one metadata read:
    the encoder named by the lower-cased format, given the quality
    [options.quality || 80], the lossless flag passed through for webp
    and avif, mozjpeg for jpeg and compression level 9 for png. *)
Theorem convertImage_returns_encoder_output (buffer : Buffer)
  (format : string) (options : Options) (out : Buffer) :
  outcome (convertImage buffer format options) = Return out ->
  exists encoder,
    sharp_toBuffer buffer encoder = Return out /\
    callsOf (convertImage buffer format options)
    = [MetadataCall buffer; EncodeCall buffer encoder] /\
    encoderQuality encoder = encodeQuality options /\
    match encoder with
    | webp _ flag => toLowerCase format = "webp" /\ flag = opt_lossless options
    | avif _ flag => toLowerCase format = "avif" /\ flag = opt_lossless options
    | jpeg _ mozjpeg =>
        (toLowerCase format = "jpg" \/ toLowerCase format = "jpeg") /\
        mozjpeg = true
    | png _ level => toLowerCase format = "png" /\ level = 9
    end.
Proof.
  destruct (sharp_new buffer) as [created|reason] eqn:Hnew.
  - destruct (sharp_metadata buffer) as [[info|]|inner] eqn:Hmeta.
    + rewrite (convertImage_encoding buffer format options created info Hnew Hmeta).
      pose proof (formatCase_arm format) as Harm.
      destruct (formatCase format); cbv zeta;
        try (intros H; discriminate H);
        match goal with
        | |- context [sharp_toBuffer buffer ?e] =>
            destruct (sharp_toBuffer buffer e) as [o|inner] eqn:Henc;
            cbn [outcome callsOf fst snd]; intros H;
            [injection H as <-; exists e; cbn [encoderQuality]; auto
            | discriminate H]
        end.
    + rewrite (convertImage_unreadable buffer format options created Hnew)
        by (intros info H; rewrite Hmeta in H; discriminate H).
      intros H. discriminate H.
    + rewrite (convertImage_unreadable buffer format options created Hnew)
        by (intros info H; rewrite Hmeta in H; discriminate H).
      intros H. discriminate H.
  - rewrite (convertImage_refused buffer format options reason Hnew).
    intros H. discriminate H.
Qed.

Lemma convertImage_same_arm (buffer : Buffer) (format1 format2 : string)
  (options : Options) :
  formatCase format1 = formatCase format2 ->
  callsOf (convertImage buffer format1 options)
  = callsOf (convertImage buffer format2 options) /\
  (forall out,
     outcome (convertImage buffer format1 options) = Return out <->
     outcome (convertImage buffer format2 options) = Return out).
Proof.
  intros Harm.
  destruct (sharp_new buffer) as [created|reason] eqn:Hnew.
  - destruct (sharp_metadata buffer) as [[info|]|inner] eqn:Hmeta.
    + rewrite !(convertImage_encoding buffer _ options created info Hnew Hmeta).
      rewrite <- Harm.
      destruct (formatCase format1); cbv zeta;
        try (destruct (sharp_toBuffer buffer _));
        cbn [outcome callsOf fst snd];
        (split; [reflexivity | intros out; split; intros H;
                               try exact H; discriminate H]).
    + rewrite !(convertImage_unreadable buffer _ options created Hnew)
        by (intros info H; rewrite Hmeta in H; discriminate H).
      split; [reflexivity | intros out; split; intros H; discriminate H].
    + rewrite !(convertImage_unreadable buffer _ options created Hnew)
        by (intros info H; rewrite Hmeta in H; discriminate H).
      split; [reflexivity | intros out; split; intros H; discriminate H].
  - rewrite !(convertImage_refused buffer _ options reason Hnew).
    split; [reflexivity | intros out; split; intros H; discriminate H].
Qed.

(** X2.  [convertImage] reads its format without regard to case, and
    "jpg" and "jpeg" are the same conversion: in both comparisons the
    library calls made are the same and so is the buffer returned. *)
Theorem convertImage_case_insensitive (buffer : Buffer) (format : string)
  (options : Options) :
  callsOf (convertImage buffer (toLowerCase format) options)
  = callsOf (convertImage buffer format options) /\
  (forall out,
     outcome (convertImage buffer (toLowerCase format) options) = Return out <->
     outcome (convertImage buffer format options) = Return out) /\
  callsOf (convertImage buffer "jpg" options)
  = callsOf (convertImage buffer "jpeg" options) /\
  (forall out,
     outcome (convertImage buffer "jpg" options) = Return out <->
     outcome (convertImage buffer "jpeg" options) = Return out).
Proof.
  destruct (convertImage_same_arm buffer (toLowerCase format) format options
              (formatCase_toLowerCase format)) as [Hcalls Hout].
  destruct (convertImage_same_arm buffer "jpg" "jpeg" options eq_refl)
    as [Hcalls' Hout'].
  auto.
Qed.

(** X3.  An error of [convertImage] raised after the constructor has
    accepted the buffer carries the message
    "Failed to convert to <format>: <inner>", where the inner message is
    that of the failed metadata read, of the unsupported format, or of
    the failed encoder; a refusal by the constructor itself is thrown
    with its own message, unwrapped. *)
Theorem convertImage_error_message (buffer : Buffer) (format : string)
  (options : Options) (message : string) :
  outcome (convertImage buffer format options) = Throw message ->
  sharp_new buffer = Throw message \/
  exists inner,
    message = "Failed to convert to " ++ format ++ ": " ++ inner /\
    (sharp_metadata buffer = Throw inner \/
     (sharp_metadata buffer = Return None /\
      inner = "Could not read image metadata") \/
     (formatCase format = CaseDefault /\
      inner = "Unsupported format: " ++ format) \/
     (exists encoder,
        sharp_toBuffer buffer encoder = Throw inner /\
        In (EncodeCall buffer encoder)
           (callsOf (convertImage buffer format options)))).
Proof.
  destruct (sharp_new buffer) as [created|reason] eqn:Hnew.
  - destruct (sharp_metadata buffer) as [[info|]|inner] eqn:Hmeta.
    + rewrite (convertImage_encoding buffer format options created info Hnew Hmeta).
      destruct (formatCase format) eqn:Harm; cbv zeta;
        try match goal with
            | |- context [sharp_toBuffer buffer ?e] =>
                destruct (sharp_toBuffer buffer e) as [o|inner] eqn:Henc;
                cbn [outcome callsOf fst snd]; intros H;
                [discriminate H|];
                injection H as <-; right; exists inner;
                split; [reflexivity|]; right; right; right;
                exists e; split; [exact Henc | simpl; tauto]
            end.
      cbn [outcome fst]. intros H. injection H as <-. right.
      eexists. split; [reflexivity|]. right. right. left. now split.
    + rewrite (convertImage_unreadable buffer format options created Hnew)
        by (intros info H; rewrite Hmeta in H; discriminate H).
      rewrite Hmeta. cbn [outcome fst]. intros H. injection H as <-. right.
      eexists. split; [reflexivity|]. right. left. now split.
    + rewrite (convertImage_unreadable buffer format options created Hnew)
        by (intros info H; rewrite Hmeta in H; discriminate H).
      rewrite Hmeta. cbn [outcome fst]. intros H. injection H as <-. right.
      eexists. split; [reflexivity|]. now left.
  - rewrite (convertImage_refused buffer format options reason Hnew).
    cbn [outcome fst]. intros H. injection H as <-. now left.
Qed.

End Conversion.

(** ** The per-file pipeline *)

Lemma Promise_all_thrown {A : Type} (first : nat)
  (settled : list (JsResult A)) (reason : string) :
  Promise_all first settled = Throw reason -> In (Throw reason) settled.
Proof.
  unfold Promise_all.
  destruct (rejections settled) as [|m others] eqn:Hrej; intros H;
    [discriminate H|].
  assert (Hnth : In (nth first (m :: others) m) (m :: others)).
  { destruct (Nat.lt_ge_cases first (List.length (m :: others))) as [Hlt | Hge].
    - apply nth_In. exact Hlt.
    - rewrite nth_overflow by exact Hge. now left. }
  injection H as <-. apply rejections_In. rewrite Hrej. exact Hnth.
Qed.

Lemma Promise_all_returns {A : Type} (first : nat) (values : list A) :
  Promise_all first (map Return values) = Return values.
Proof.
  unfold Promise_all.
  assert (Hrej : rejections (map (@Return A) values) = [])
    by (induction values; simpl; auto).
  assert (Hful : fulfilments (map (@Return A) values) = values)
    by (induction values as [|v vs IH]; simpl; [|rewrite IH]; auto).
  now rewrite Hrej, Hful.
Qed.

Lemma Forall2_map_eq {A B C : Type} (f : A -> C) (g : B -> C)
  (xs : list A) (ys : list B) :
  Forall2 (fun x y => f x = g y) xs ys -> map f xs = map g ys.
Proof.
  intros H. induction H as [|x y xs ys Hxy _ IH]; simpl;
    [reflexivity | now rewrite Hxy, IH].
Qed.

Lemma Forall2_length_eq {A B : Type} (R : A -> B -> Prop)
  (xs : list A) (ys : list B) :
  Forall2 R xs ys -> List.length xs = List.length ys.
Proof.
  intros H. induction H; simpl; auto.
Qed.

Lemma Forall2_left {A B : Type} (R : A -> B -> Prop) (P : A -> Prop)
  (xs : list A) (ys : list B) :
  (forall x y, R x y -> P x) -> Forall2 R xs ys -> Forall P xs.
Proof.
  intros HRP H. induction H; constructor; eauto.
Qed.

Lemma concat_map_filter {A B : Type} (g : A -> list B) (keep : A -> bool)
  (xs : list A) :
  (forall x, keep x = false -> g x = []) ->
  concat (map g xs) = concat (map g (filter keep xs)).
Proof.
  intros Hdrop. induction xs as [|x xs IH]; simpl; [reflexivity|].
  destruct (keep x) eqn:Hx; simpl.
  - now rewrite IH.
  - now rewrite (Hdrop x Hx), IH.
Qed.

Lemma concat_length_uniform {A B : Type} (g : A -> list B) (n : nat)
  (xs : list A) :
  Forall (fun x => List.length (g x) = n) xs ->
  List.length (concat (map g xs)) = n * List.length xs.
Proof.
  intros H. induction H as [|x xs Hx _ IH]; simpl.
  - now rewrite Nat.mul_0_r.
  - rewrite length_app, Hx, IH. lia.
Qed.

Section Files.

Context {sharp : Sharp} {builtins : Builtins}.

Lemma convertImage_calls_shape (buffer : Buffer) (format : string)
  (options : Options) :
  Forall (fun call =>
            match call with
            | MetadataCall input => input = buffer
            | EncodeCall input encoder =>
                input = buffer /\
                encoderQuality encoder = encodeQuality options /\
                match encoder with
                | webp _ flag =>
                    toLowerCase format = "webp" /\ flag = opt_lossless options
                | avif _ flag =>
                    toLowerCase format = "avif" /\ flag = opt_lossless options
                | jpeg _ mozjpeg =>
                    (toLowerCase format = "jpg" \/ toLowerCase format = "jpeg") /\
                    mozjpeg = true
                | png _ level => toLowerCase format = "png" /\ level = 9
                end
            end)
         (callsOf (convertImage buffer format options)).
Proof.
  destruct (sharp_new buffer) as [created|reason] eqn:Hnew.
  - destruct (sharp_metadata buffer) as [[info|]|inner] eqn:Hmeta.
    + rewrite (convertImage_encoding buffer format options created info Hnew Hmeta).
      pose proof (formatCase_arm format) as Harm.
      destruct (formatCase format); cbv zeta;
        try (destruct (sharp_toBuffer buffer _));
        cbn [callsOf snd];
        repeat (first [apply Forall_cons | apply Forall_nil | split]); auto.
    + rewrite (convertImage_unreadable buffer format options created Hnew)
        by (intros info H; rewrite Hmeta in H; discriminate H).
      repeat constructor.
    + rewrite (convertImage_unreadable buffer format options created Hnew)
        by (intros info H; rewrite Hmeta in H; discriminate H).
      repeat constructor.
  - rewrite (convertImage_refused buffer format options reason Hnew).
    constructor.
Qed.

Lemma convertImage_returned (buffer : Buffer) (format : string)
  (options : Options) (out : Buffer) :
  outcome (convertImage buffer format options) = Return out ->
  exists encoder,
    sharp_toBuffer buffer encoder = Return out /\
    callsOf (convertImage buffer format options)
    = [MetadataCall buffer; EncodeCall buffer encoder].
Proof.
  destruct (sharp_new buffer) as [created|reason] eqn:Hnew.
  - destruct (sharp_metadata buffer) as [[info|]|inner] eqn:Hmeta.
    + rewrite (convertImage_encoding buffer format options created info Hnew Hmeta).
      destruct (formatCase format); cbv zeta;
        try (intros H; discriminate H);
        match goal with
        | |- context [sharp_toBuffer buffer ?e] =>
            destruct (sharp_toBuffer buffer e) as [o|inner] eqn:Henc;
            cbn [outcome callsOf fst snd]; intros H;
            [injection H as <-; exists e; auto | discriminate H]
        end.
    + rewrite (convertImage_unreadable buffer format options created Hnew)
        by (intros info H; rewrite Hmeta in H; discriminate H).
      intros H. discriminate H.
    + rewrite (convertImage_unreadable buffer format options created Hnew)
        by (intros info H; rewrite Hmeta in H; discriminate H).
      intros H. discriminate H.
  - rewrite (convertImage_refused buffer format options reason Hnew).
    intros H. discriminate H.
Qed.

Lemma inspect_returned (buffer : Buffer) (info : option Metadata) :
  outcome (inspect buffer) = Return info ->
  sharp_metadata buffer = Return info /\
  callsOf (inspect buffer) = [MetadataCall buffer].
Proof.
  unfold inspect, instance, metadata, bind, outcome, callsOf.
  destruct (sharp_new buffer) as [created|reason]; cbn [fst snd app];
    intros H; [now split | discriminate H].
Qed.

Lemma inspect_calls_all (P : SharpCall -> Prop) (buffer : Buffer) :
  P (MetadataCall buffer) -> Forall P (callsOf (inspect buffer)).
Proof.
  intros HP. unfold inspect. rewrite callsOf_bind.
  unfold instance, metadata. cbn [outcome callsOf fst snd app].
  destruct (sharp_new buffer); repeat constructor. exact HP.
Qed.

(** A property of calls that holds of every metadata read and of the
    calls of [convertImage] holds of all the calls of a pipeline. *)
Lemma processFile_calls_all (P : SharpCall -> Prop) (targetFormat : string)
  (quality : number) (lossless : bool) (file : File) :
  (forall input, P (MetadataCall input)) ->
  Forall P (callsOf (convertImage (file_bytes file) targetFormat
                       {| opt_quality := Some quality;
                          opt_lossless := Some lossless |})) ->
  Forall P (callsOf (processFile targetFormat quality lossless file)).
Proof.
  intros Hmeta Hconv. unfold processFile.
  destruct (isValidImageType file); cbn [negb]; [|constructor].
  rewrite callsOf_tryCatch, callsOf_bind.
  apply Forall_app; split; [apply Forall_app; split|].
  - apply inspect_calls_all, Hmeta.
  - destruct (outcome (inspect (file_bytes file))) as [[originalInfo|]|m];
      try constructor.
    rewrite callsOf_bind. apply Forall_app. split; [exact Hconv|].
    destruct (outcome (convertImage _ _ _)) as [convertedBuffer|m];
      [|constructor].
    rewrite callsOf_bind. apply Forall_app.
    split; [apply inspect_calls_all, Hmeta|].
    destruct (outcome (inspect convertedBuffer)) as [[convertedInfo|]|m];
      constructor.
  - match goal with
    | |- Forall _ match ?o with _ => _ end => destruct o; constructor
    end.
Qed.

Lemma processFile_thrown (targetFormat : string) (quality : number)
  (lossless : bool) (file : File) (reason : string) :
  outcome (processFile targetFormat quality lossless file) = Throw reason ->
  (isValidImageType file = false /\
   reason = "Invalid file type: " ++ file_name file) \/
  (isValidImageType file = true /\
   exists inner,
     reason = "Failed to convert " ++ file_name file ++ ": " ++ inner).
Proof.
  unfold processFile.
  destruct (isValidImageType file); cbn [negb].
  - rewrite outcome_tryCatch.
    match goal with
    | |- match ?o with _ => _ end = _ -> _ => destruct o as [record|inner]
    end; intros H; [discriminate H|].
    injection H as <-. right. split; [reflexivity|]. now exists inner.
  - intros H. injection H as <-. now left.
Qed.

Lemma processFile_invalid_calls (targetFormat : string) (quality : number)
  (lossless : bool) (file : File) :
  isValidImageType file = false ->
  callsOf (processFile targetFormat quality lossless file) = [].
Proof.
  intros H. unfold processFile. now rewrite H.
Qed.

Lemma processFile_payload (targetFormat : string) (quality : number)
  (lossless : bool) (file : File) (record : ConvertedFile) :
  outcome (processFile targetFormat quality lossless file) = Return record ->
  exists originalInfo encoder out convertedInfo,
    sharp_metadata (file_bytes file) = Return (Some originalInfo) /\
    sharp_toBuffer (file_bytes file) encoder = Return out /\
    sharp_metadata out = Return (Some convertedInfo) /\
    buffer record = base64 out /\
    size record = List.length out /\
    original record = summary originalInfo (file_bytes file) /\
    converted record = summary convertedInfo out /\
    callsOf (processFile targetFormat quality lossless file)
    = [MetadataCall (file_bytes file); MetadataCall (file_bytes file);
       EncodeCall (file_bytes file) encoder; MetadataCall out].
Proof.
  unfold processFile.
  destruct (isValidImageType file); cbn [negb]; [|intros H; discriminate H].
  rewrite outcome_tryCatch, callsOf_tryCatch, outcome_bind, callsOf_bind.
  destruct (outcome (inspect (file_bytes file))) as [[originalInfo|]|m] eqn:Hin;
    try (intros H; discriminate H).
  destruct (inspect_returned _ _ Hin) as [Hmeta Hcalls].
  rewrite outcome_bind, callsOf_bind.
  destruct (outcome (convertImage _ _ _)) as [out|m] eqn:Hconv;
    try (intros H; discriminate H).
  destruct (convertImage_returned _ _ _ _ Hconv) as (encoder & Henc & Hcc).
  rewrite outcome_bind, callsOf_bind.
  destruct (outcome (inspect out)) as [[convertedInfo|]|m] eqn:Hout;
    try (intros H; discriminate H).
  destruct (inspect_returned _ _ Hout) as [Hmeta' Hcalls'].
  unfold ret. cbn [outcome callsOf fst snd]. intros H. injection H as <-.
  exists originalInfo, encoder, out, convertedInfo.
  cbn [buffer size original converted].
  repeat (split; [auto; fail|]).
  unfold callsOf in *. rewrite Hcalls, Hcc, Hcalls'. reflexivity.
Qed.

End Files.

(** ** The handler *)

Section Batches.

Context {sharp : Sharp} {builtins : Builtins}.

(** X4.  A request with at least one file and a target format of the
    registry, all of whose pipelines return, is answered 200 with the
    message "Files converted successfully" and the records of the files
    in the order of the files. *)
Theorem upload_all_converted (first : nat) (formData : FormData)
  (targetFormat : string) (results : list ConvertedFile) :
  fd_files formData <> [] ->
  fd_targetFormat formData = Some targetFormat ->
  In targetFormat (Object_keys SUPPORTED_FORMATS) ->
  Forall2 (fun file record =>
             outcome (processFile targetFormat (requestQuality formData)
                        (isTrue (fd_lossless formData)) file) = Return record)
          (fd_files formData) results ->
  response (upload first (Return formData))
  = {| status := 200;
       body := SuccessBody "Files converted successfully" results |}.
Proof.
  intros Hfiles Hformat Hkey Hall.
  rewrite (upload_validated first formData targetFormat Hfiles Hformat Hkey).
  unfold batch. cbn [response]. rewrite map_map.
  rewrite (Forall2_map_eq
             (fun file =>
                outcome (processFile targetFormat (requestQuality formData)
                           (isTrue (fd_lossless formData)) file))
             Return _ _ Hall).
  now rewrite Promise_all_returns.
Qed.

(** X5.  In a success response there is one record per file, in the
    order of the files, each carrying the original name of its file, and
    every file of the request had an acceptable declared type. *)
Theorem success_records_follow_files (first : nat) (formData : FormData)
  (message : string) (results : list ConvertedFile) :
  body (response (upload first (Return formData))) = SuccessBody message results ->
  List.length results = List.length (fd_files formData) /\
  map originalName results = map file_name (fd_files formData) /\
  Forall (fun file => isValidImageType file = true) (fd_files formData) /\
  results <> [].
Proof.
  intros H.
  destruct (upload_cases first formData)
    as [[_ Hrun] | [[_ Hrun] | (tf & Hfiles & _ & _ & _)]];
    try (rewrite Hrun in H; discriminate H).
  destruct (upload_success first formData _ _ H) as (tf' & _ & _ & Hall).
  pose proof (Forall2_length_eq _ _ _ Hall) as Hlen.
  split; [now symmetry|]. split; [|split].
  - symmetry. apply Forall2_map_eq. revert Hall. apply Forall2_impl.
    intros file record Hrec. apply processFile_fulfilled in Hrec.
    symmetry. tauto.
  - revert Hall. apply Forall2_left.
    intros file record Hrec. now apply processFile_fulfilled in Hrec.
  - intros ->. destruct (fd_files formData); [contradiction | discriminate Hlen].
Qed.

(** X6.  Files of an unacceptable declared type never reach the image
    library: the library calls of a validated request are those of the
    pipelines of its acceptable files alone. *)
Theorem invalid_files_make_no_calls (first : nat) (formData : FormData)
  (targetFormat : string) :
  fd_targetFormat formData = Some targetFormat ->
  In targetFormat (Object_keys SUPPORTED_FORMATS) ->
  sharpCalls (upload first (Return formData))
  = concat (map (fun file =>
                   callsOf (processFile targetFormat (requestQuality formData)
                              (isTrue (fd_lossless formData)) file))
                (filter isValidImageType (fd_files formData))).
Proof.
  intros Hformat Hkey.
  destruct (fd_files formData) as [|file files] eqn:Hfiles.
  - now rewrite (upload_no_files first formData Hfiles).
  - rewrite (upload_validated first formData targetFormat);
      [|rewrite Hfiles; discriminate | exact Hformat | exact Hkey].
    unfold batch. cbn [sharpCalls]. rewrite map_map, Hfiles.
    apply concat_map_filter.
    intros f Hf. now apply processFile_invalid_calls.
Qed.

(** On a form all of whose [files] entries are file parts the handler
    on raw entries is the handler on files. *)
Lemma uploadEntries_typed (typeError : string) (first : nat)
  (formData : FormData) :
  uploadEntries typeError first (Return (typed formData))
  = upload first (Return formData).
Proof.
  unfold uploadEntries, upload, typed, requestQuality.
  cbn [raw_files raw_targetFormat raw_quality raw_lossless].
  rewrite length_map.
  destruct (Nat.eqb (List.length (fd_files formData)) 0); [reflexivity|].
  destruct (fd_targetFormat formData) as [targetFormat|]; [|reflexivity].
  destruct (negb (includes (Object_keys SUPPORTED_FORMATS) targetFormat));
    [reflexivity|].
  now rewrite !map_map.
Qed.

(** X7.  The details of a 500 answer to a parsed request are either the
    message of the [TypeError] raised on a text entry of [files], or
    name a file of the request: they are "Invalid file type: <name>" for
    a file the guard rejects, or start with "Failed to convert <name>: "
    for a file the guard accepts. *)
Theorem error_details_name_a_file (typeError : string) (first : nat)
  (formData : RawFormData) :
  status (response (uploadEntries typeError first (Return formData))) = 500 ->
  exists details,
    body (response (uploadEntries typeError first (Return formData)))
    = ErrorBody "Error processing files" (Some details) /\
    ((exists text,
        In (TextEntry text) (raw_files formData) /\ details = typeError) \/
     (exists file,
        In (FileEntry file) (raw_files formData) /\
        ((isValidImageType file = false /\
          details = "Invalid file type: " ++ file_name file) \/
         (isValidImageType file = true /\
          exists inner,
            details
            = "Failed to convert " ++ file_name file ++ ": " ++ inner)))).
Proof.
  unfold uploadEntries.
  destruct (Nat.eqb (List.length (raw_files formData)) 0);
    [intros H; discriminate H|].
  destruct (raw_targetFormat formData) as [targetFormat|];
    [|intros H; discriminate H].
  destruct (negb (includes (Object_keys SUPPORTED_FORMATS) targetFormat));
    [intros H; discriminate H|].
  cbv zeta. cbn [response].
  destruct (Promise_all first _) as [records|details] eqn:Hall;
    cbn [status body]; intros H; [discriminate H|].
  apply Promise_all_thrown in Hall. rewrite map_map in Hall.
  apply in_map_iff in Hall. destruct Hall as (entry & Hthrown & Hentry).
  exists details. split; [reflexivity|].
  destruct entry as [file|text]; cbn [processEntry] in Hthrown.
  - right. exists file. split; [exact Hentry|].
    now apply (processFile_thrown targetFormat
                 (orElse (Number (raw_quality formData)) eighty)
                 (isTrue (raw_lossless formData))).
  - left. exists text. split; [exact Hentry|].
    unfold throw, outcome in Hthrown. cbn [fst] in Hthrown.
    now injection Hthrown.
Qed.

(** X8.  Whatever the request, the handler answers in one of three
    shapes: 200 with the success message and at least one record; 400
    with one of the two validation errors, no details and nothing
    started; or 500 with the error "Error processing files" and
    details. *)
Theorem response_shape (first : nat) (request : JsResult FormData) :
  match body (response (upload first request)) with
  | SuccessBody message results =>
      status (response (upload first request)) = 200 /\
      message = "Files converted successfully" /\
      results <> []
  | ErrorBody error None =>
      status (response (upload first request)) = 400 /\
      (error = "No files provided" \/ error = "Unsupported format") /\
      tasks (upload first request) = [] /\
      sharpCalls (upload first request) = []
  | ErrorBody error (Some details) =>
      status (response (upload first request)) = 500 /\
      error = "Error processing files"
  end.
Proof.
  destruct request as [formData|reason]; [|now split].
  destruct (upload_cases first formData)
    as [[_ Hrun] | [[_ Hrun] | (tf & Hfiles & _ & _ & Hrun)]];
    rewrite Hrun; try (cbn; tauto).
  unfold batch. cbn [response].
  destruct (Promise_all first _) as [records|details] eqn:Hall;
    cbn [status body]; [|now split].
  repeat split. intros ->.
  apply Promise_all_fulfilled in Hall.
  destruct (fd_files formData); [contradiction | discriminate Hall].
Qed.

(** X9.  No encoder is ever given a quality that is [NaN] or zero:
    the quality of a request and the quality [convertImage] settles on
    are truthy, and so is the quality of every encoder call of a run. *)
Theorem quality_never_falsy (first : nat) (formData : FormData)
  (options : Options) :
  truthy (requestQuality formData) = true /\
  truthy (encodeQuality options) = true /\
  Forall (fun call =>
            match call with
            | MetadataCall _ => True
            | EncodeCall _ encoder => truthy (encoderQuality encoder) = true
            end)
         (sharpCalls (upload first (Return formData))).
Proof.
  split; [apply truthy_orElse|]. split; [apply truthy_encodeQuality|].
  destruct (upload_cases first formData)
    as [[_ Hrun] | [[_ Hrun] | (tf & _ & _ & _ & Hrun)]];
    rewrite Hrun; try constructor.
  unfold batch. cbn [sharpCalls].
  apply Forall_concat. apply Forall_map. apply Forall_forall.
  intros calls Hcalls. apply in_map_iff in Hcalls.
  destruct Hcalls as (file & <- & _).
  apply processFile_calls_all; [intros input; exact I|].
  eapply Forall_impl; [|apply convertImage_calls_shape].
  intros [input|input encoder]; [trivial|].
  intros (_ & Hq & _). rewrite Hq. apply truthy_encodeQuality.
Qed.

(** X12.  Every encoder a run starts works on the bytes of an
    acceptable file of the request, is the encoder of the request's
    target format, and carries the request's options: its quality, the
    lossless flag (set exactly by the text "true") for webp and avif,
    mozjpeg for jpg and jpeg, compression level 9 for png. *)
Theorem encoder_follows_request (first : nat) (formData : FormData)
  (input : Buffer) (encoder : Encoder) :
  In (EncodeCall input encoder) (sharpCalls (upload first (Return formData))) ->
  (exists file,
     In file (fd_files formData) /\ isValidImageType file = true /\
     input = file_bytes file) /\
  encoderQuality encoder = requestQuality formData /\
  (isTrue (fd_lossless formData) = true <-> fd_lossless formData = Some "true") /\
  match encoder with
  | webp _ flag =>
      fd_targetFormat formData = Some "webp" /\
      flag = Some (isTrue (fd_lossless formData))
  | avif _ flag =>
      fd_targetFormat formData = Some "avif" /\
      flag = Some (isTrue (fd_lossless formData))
  | jpeg _ mozjpeg =>
      (fd_targetFormat formData = Some "jpg" \/
       fd_targetFormat formData = Some "jpeg") /\
      mozjpeg = true
  | png _ level => fd_targetFormat formData = Some "png" /\ level = 9
  end.
Proof.
  destruct (upload_cases first formData)
    as [[_ Hrun] | [[_ Hrun] | (tf & _ & Hformat & Hkey & Hrun)]];
    rewrite Hrun; try (intros []).
  unfold batch. cbn [sharpCalls]. rewrite map_map.
  intros Hin. apply in_concat in Hin. destruct Hin as (calls & Hcalls & Hin).
  apply in_map_iff in Hcalls. destruct Hcalls as (file & <- & Hfile).
  assert (Hvalid : isValidImageType file = true).
  { destruct (isValidImageType file) eqn:Hv; [reflexivity|].
    rewrite (processFile_invalid_calls _ _ _ _ Hv) in Hin. destruct Hin. }
  assert (Hall : Forall
                   (fun call =>
                      match call with
                      | MetadataCall _ => True
                      | EncodeCall input' encoder' =>
                          input' = file_bytes file /\
                          encoderQuality encoder' = requestQuality formData /\
                          match encoder' with
                          | webp _ flag =>
                              tf = "webp" /\
                              flag = Some (isTrue (fd_lossless formData))
                          | avif _ flag =>
                              tf = "avif" /\
                              flag = Some (isTrue (fd_lossless formData))
                          | jpeg _ mozjpeg =>
                              (tf = "jpg" \/ tf = "jpeg") /\ mozjpeg = true
                          | png _ level => tf = "png" /\ level = 9
                          end
                      end)
                   (callsOf (processFile tf (requestQuality formData)
                               (isTrue (fd_lossless formData)) file))).
  { apply processFile_calls_all; [intros input'; exact I|].
    eapply Forall_impl; [|apply convertImage_calls_shape].
    intros [input'|input' encoder']; [trivial|].
    rewrite (toLowerCase_key tf Hkey).
    unfold encodeQuality. cbn [opt_quality opt_lossless].
    unfold requestQuality at 1. rewrite orElse_idempotent.
    tauto. }
  rewrite Forall_forall in Hall. specialize (Hall _ Hin).
  cbv beta iota in Hall.
  destruct Hall as (Hinput & Hquality & Hencoder).
  split; [exists file; auto|]. split; [exact Hquality|]. split.
  - unfold isTrue. destruct (fd_lossless formData) as [text|].
    + rewrite String.eqb_eq. split; [now intros -> | intros H; now injection H].
    + split; intros H; discriminate H.
  - rewrite Hformat.
    destruct encoder; destruct Hencoder as [Htf Hrest];
      (split; [|exact Hrest]);
      try (now rewrite Htf).
    destruct Htf as [-> | ->]; auto.
Qed.

(** X13.  In a success response the payload of every record is the
    output of an encoder run on the bytes of its file: the [buffer]
    field is its base64 text and [size] its length, the two metadata
    blocks are what the library reports about the original bytes and
    about the output, with their lengths; and the run made exactly four
    library calls per file. *)
Theorem success_payload (first : nat) (formData : FormData)
  (message : string) (results : list ConvertedFile) :
  body (response (upload first (Return formData))) = SuccessBody message results ->
  Forall2 (fun file record =>
             exists originalInfo encoder out convertedInfo,
               sharp_metadata (file_bytes file) = Return (Some originalInfo) /\
               sharp_toBuffer (file_bytes file) encoder = Return out /\
               sharp_metadata out = Return (Some convertedInfo) /\
               buffer record = base64 out /\
               size record = List.length out /\
               original record = summary originalInfo (file_bytes file) /\
               converted record = summary convertedInfo out)
          (fd_files formData) results /\
  List.length (sharpCalls (upload first (Return formData)))
  = 4 * List.length (fd_files formData).
Proof.
  intros H.
  destruct (upload_success first formData _ _ H) as (tf & Hformat & Hkey & Hall).
  split.
  - revert Hall. apply Forall2_impl. intros file record Hrec.
    destruct (processFile_payload _ _ _ _ _ Hrec)
      as (oi & enc & out & ci & H1 & H2 & H3 & H4 & H5 & H6 & H7 & _).
    exists oi, enc, out, ci. auto 10.
  - assert (Hfour : Forall
                      (fun file =>
                         List.length
                           (callsOf (processFile tf (requestQuality formData)
                                       (isTrue (fd_lossless formData)) file))
                         = 4)
                      (fd_files formData)).
    { revert Hall. apply Forall2_left. intros file record Hrec.
      destruct (processFile_payload _ _ _ _ _ Hrec)
        as (oi & enc & out & ci & _ & _ & _ & _ & _ & _ & _ & Hcalls).
      now rewrite Hcalls. }
    destruct (fd_files formData) as [|file files] eqn:Hfiles.
    + now rewrite (upload_no_files first formData Hfiles).
    + rewrite (upload_validated first formData tf);
        [|rewrite Hfiles; discriminate | exact Hformat | exact Hkey].
      unfold batch. cbn [sharpCalls]. rewrite map_map, Hfiles.
      now apply (concat_length_uniform
                   (fun file =>
                      callsOf (processFile tf (requestQuality formData)
                                 (isTrue (fd_lossless formData)) file))).
Qed.

End Batches.

(** ** The further properties on the concrete platform *)

Lemma convertImage_returns_encoder_output_witness :
  outcome (@convertImage Demo.sharp [Byte.x04; Byte.x2a] "JPEG"
             (mkOptions None (Some true)))
  = Return [Byte.x03; Byte.x04; Byte.x2a] /\
  exists encoder,
    sharp_toBuffer (Sharp := Demo.sharp) [Byte.x04; Byte.x2a] encoder
    = Return [Byte.x03; Byte.x04; Byte.x2a] /\
    encoderQuality encoder = eighty.
Proof.
  split; [reflexivity|].
  destruct (@convertImage_returns_encoder_output Demo.sharp
              [Byte.x04; Byte.x2a] "JPEG" (mkOptions None (Some true))
              [Byte.x03; Byte.x04; Byte.x2a] eq_refl)
    as (encoder & Hout & _ & Hquality & _).
  exists encoder. split; [exact Hout | exact Hquality].
Defined.

Lemma convertImage_error_message_witness :
  outcome (@convertImage Demo.sharp [Byte.x04] "bmp" (mkOptions None None))
  = Throw "Failed to convert to bmp: Unsupported format: bmp" /\
  (sharp_new (Sharp := Demo.sharp) [Byte.x04]
   = Throw "Failed to convert to bmp: Unsupported format: bmp" \/
   exists inner,
     "Failed to convert to bmp: Unsupported format: bmp"
     = "Failed to convert to " ++ "bmp" ++ ": " ++ inner /\
     (sharp_metadata (Sharp := Demo.sharp) [Byte.x04] = Throw inner \/
      (sharp_metadata (Sharp := Demo.sharp) [Byte.x04] = Return None /\
       inner = "Could not read image metadata") \/
      (formatCase "bmp" = CaseDefault /\ inner = "Unsupported format: " ++ "bmp") \/
      (exists encoder,
         sharp_toBuffer (Sharp := Demo.sharp) [Byte.x04] encoder = Throw inner /\
         In (EncodeCall [Byte.x04] encoder)
            (callsOf (@convertImage Demo.sharp [Byte.x04] "bmp"
                        (mkOptions None None)))))).
Proof.
  split; [reflexivity|].
  apply (@convertImage_error_message Demo.sharp [Byte.x04] "bmp"
           (mkOptions None None)).
  reflexivity.
Defined.

Lemma upload_all_converted_witness :
  exists results,
    response (Demo.run 0 (Demo.form [Demo.photo; Demo.readme] "avif"))
    = {| status := 200;
         body := SuccessBody "Files converted successfully" results |} /\
    map name results = ["photo.avif"; "README.avif"].
Proof.
  eexists. split.
  - apply (@upload_all_converted Demo.sharp Demo.builtins 0
             (Demo.form [Demo.photo; Demo.readme] "avif") "avif").
    + discriminate.
    + reflexivity.
    + simpl. tauto.
    + constructor; [vm_compute; reflexivity|].
      constructor; [vm_compute; reflexivity|]. constructor.
  - reflexivity.
Defined.

Lemma success_records_follow_files_witness :
  exists results,
    body (response (Demo.run 0 (Demo.form [Demo.photo; Demo.hidden] "png")))
    = SuccessBody "Files converted successfully" results /\
    List.length results = 2 /\
    map originalName results = ["photo.with.dots.png"; ".hidden.png"].
Proof.
  eexists. split; [vm_compute; reflexivity|].
  destruct (@success_records_follow_files Demo.sharp Demo.builtins 0
              (Demo.form [Demo.photo; Demo.hidden] "png") _ _ eq_refl)
    as (Hlen & Hnames & _).
  split; [exact Hlen | exact Hnames].
Defined.

Lemma invalid_files_make_no_calls_witness :
  sharpCalls (Demo.run 0 (Demo.form [Demo.notes; Demo.photo; Demo.notes] "webp"))
  = concat (map (fun file =>
                   callsOf (@processFile Demo.sharp Demo.builtins "webp"
                              eighty false file))
                [Demo.photo]).
Proof.
  apply (@invalid_files_make_no_calls Demo.sharp Demo.builtins 0
           (Demo.form [Demo.notes; Demo.photo; Demo.notes] "webp") "webp").
  - reflexivity.
  - simpl. tauto.
Defined.

Lemma error_details_name_a_file_witness :
  status
    (response
       (@uploadEntries Demo.sharp Demo.builtins "TypeError" 0
          (Return (mkRawFormData
                     [FileEntry Demo.photo; FileEntry Demo.notes;
                      TextEntry "caption"]
                     (Some "webp") None None))))
  = 500 /\
  exists details,
    body
      (response
         (@uploadEntries Demo.sharp Demo.builtins "TypeError" 0
            (Return (mkRawFormData
                       [FileEntry Demo.photo; FileEntry Demo.notes;
                        TextEntry "caption"]
                       (Some "webp") None None))))
    = ErrorBody "Error processing files" (Some details).
Proof.
  split; [reflexivity|].
  destruct (@error_details_name_a_file Demo.sharp Demo.builtins "TypeError" 0
              (mkRawFormData
                 [FileEntry Demo.photo; FileEntry Demo.notes;
                  TextEntry "caption"]
                 (Some "webp") None None)
              eq_refl)
    as (details & Hbody & _).
  exists details. exact Hbody.
Defined.

Lemma encoder_follows_request_witness :
  In (EncodeCall [Byte.x04; Byte.x2a] (jpeg eighty true))
     (sharpCalls (Demo.run 0 (Demo.form [Demo.notes; Demo.photo] "jpg"))) /\
  encoderQuality (jpeg eighty true)
  = @requestQuality Demo.builtins (Demo.form [Demo.notes; Demo.photo] "jpg").
Proof.
  assert (H : In (EncodeCall [Byte.x04; Byte.x2a] (jpeg eighty true))
                (sharpCalls
                   (Demo.run 0 (Demo.form [Demo.notes; Demo.photo] "jpg")))).
  { vm_compute. right. right. left. reflexivity. }
  split; [exact H|].
  exact (proj1 (proj2 (@encoder_follows_request Demo.sharp Demo.builtins 0
                         (Demo.form [Demo.notes; Demo.photo] "jpg")
                         _ _ H))).
Defined.

Lemma success_payload_witness :
  exists results,
    body (response (Demo.run 0 (Demo.form [Demo.photo; Demo.readme] "webp")))
    = SuccessBody "Files converted successfully" results /\
    List.length
      (sharpCalls (Demo.run 0 (Demo.form [Demo.photo; Demo.readme] "webp")))
    = 4 * 2.
Proof.
  eexists. split; [vm_compute; reflexivity|].
  exact (proj2 (@success_payload Demo.sharp Demo.builtins 0
                  (Demo.form [Demo.photo; Demo.readme] "webp") _ _ eq_refl)).
Defined.
